(** * chatbot-app2: the completion proxy and the playground client

    A shallow embedding of [src/App.tsx]: the Go proxy ([enableCORS],
    [handleCompletion]) that translates a completions request into a call
    of the local inference engine, and the React client ([handleSend],
    [clearChat], the session metrics) that talks to it.

    The proxy handler is a function of the request and of an environment
    that answers for the world outside the handler: what the JSON decoders
    make of a body, what the upstream call returns, what the clock says.
    The client handler runs in a small state-and-exception monad over the
    component state, with the network as an oracle. *)

From Stdlib Require Import ZArith NArith List String Ascii Bool Lia Floats.
From Stdlib Require Import Numbers.DecimalString.
From stdpp Require Import base option list gmap strings.

Import ListNotations.
Local Open Scope string_scope.
Local Open Scope list_scope.
Local Open Scope Z_scope.

(* ====================================================================== *)
(** * Part I. The Go proxy *)
(* ====================================================================== *)

(** ** JSON values, as [encoding/json] writes them *)

#[warnings="-register-all"]
Inductive json : Type :=
| JNull
| JBool (b : bool)
| JNumber (n : Z)
| JString (s : string)
| JArray (items : list json)
| JObject (members : list (string * json)).

(** The member names of an object, in the order they are written. *)
Definition json_keys (v : json) : list string :=
  match v with
  | JObject members => map fst members
  | _ => []
  end.

(** The value of member [k], first occurrence. *)
Fixpoint assoc_member (k : string) (members : list (string * json)) : option json :=
  match members with
  | [] => None
  | (k', v) :: rest => if String.eqb k k' then Some v else assoc_member k rest
  end.

Definition json_member (k : string) (v : json) : option json :=
  match v with
  | JObject members => assoc_member k members
  | _ => None
  end.

(** ** The wire structs (lines 392-429) *)

Module CompletionRequest.
Record t := mk { Model : string; Prompt : string; MaxTokens : Z }.
End CompletionRequest.

Module Choice.
Record t := mk { Text : string }.
End Choice.

Module Usage.
Record t := mk { CompletionTokens : Z }.
End Usage.

Module CompletionResponse.
Record t := mk { Choices : list Choice.t; Usage : Usage.t }.
End CompletionResponse.

Module OllamaRequest.
Record t := mk { Model : string; Prompt : string; Stream : bool }.
End OllamaRequest.

Module OllamaResponse.
Record t := mk {
  Model : string;
  Response : string;
  Done : bool;
  TotalDuration : Z;
  EvalCount : Z
}.
End OllamaResponse.

(** [json.Marshal] of the structs the proxy writes: one member per field,
    named by the field's struct tag, in declaration order. *)
Definition marshal_OllamaRequest (r : OllamaRequest.t) : json :=
  JObject [ ("model", JString (OllamaRequest.Model r));
            ("prompt", JString (OllamaRequest.Prompt r));
            ("stream", JBool (OllamaRequest.Stream r)) ].

Definition marshal_Choice (c : Choice.t) : json :=
  JObject [ ("text", JString (Choice.Text c)) ].

Definition marshal_Usage (u : Usage.t) : json :=
  JObject [ ("completion_tokens", JNumber (Usage.CompletionTokens u)) ].

Definition marshal_CompletionResponse (r : CompletionResponse.t) : json :=
  JObject [ ("choices", JArray (map marshal_Choice (CompletionResponse.Choices r)));
            ("usage", marshal_Usage (CompletionResponse.Usage r)) ].

(** [json.Marshal(ollamaReq)] returns an error value next to the bytes; for
    a struct of two strings and a bool it is always nil, and the handler
    still tests it (line 471). *)
Definition json_Marshal (r : OllamaRequest.t) : json + string :=
  inl (marshal_OllamaRequest r).

(** ** [bytes.Fields] *)

Definition byte := Z.
Definition rune := Z.

Definition bytes_of_string (s : string) : list byte :=
  map (fun a => Z.of_N (N_of_ascii a)) (list_ascii_of_string s).

Definition RuneSelf : Z := 128.
Definition RuneError : rune := 65533.

(** [utf8.first] with [utf8.acceptRanges]: for a leading byte of a
    multi-byte sequence, its length and the range its second byte must lie
    in; [None] for a byte that starts no such sequence. *)
Definition utf8_first (p0 : byte) : option (nat * Z * Z) :=
  if (194 <=? p0) && (p0 <=? 223) then Some (2%nat, 128, 191)
  else if p0 =? 224 then Some (3%nat, 160, 191)
  else if (225 <=? p0) && (p0 <=? 236) then Some (3%nat, 128, 191)
  else if p0 =? 237 then Some (3%nat, 128, 159)
  else if (238 <=? p0) && (p0 <=? 239) then Some (3%nat, 128, 191)
  else if p0 =? 240 then Some (4%nat, 144, 191)
  else if (241 <=? p0) && (p0 <=? 243) then Some (4%nat, 128, 191)
  else if p0 =? 244 then Some (4%nat, 128, 143)
  else None.

Definition is_cont (b : byte) : bool := (128 <=? b) && (b <=? 191).

(** [utf8.DecodeRune]: the first code point of [p] and its width in bytes;
    an ill-formed or truncated sequence decodes as [RuneError] of width 1,
    the empty slice as [RuneError] of width 0. *)
Definition utf8_DecodeRune (p : list byte) : rune * nat :=
  match p with
  | [] => (RuneError, 0%nat)
  | p0 :: rest =>
    if p0 <? RuneSelf then (p0, 1%nat)
    else
      match utf8_first p0 with
      | None => (RuneError, 1%nat)
      | Some (sz, lo, hi) =>
        match rest with
        | [] => (RuneError, 1%nat)
        | b1 :: rest1 =>
          if (b1 <? lo) || (hi <? b1) then (RuneError, 1%nat)
          else if (sz <=? 2)%nat
          then (Z.lor (Z.shiftl (Z.land p0 31) 6) (Z.land b1 63), 2%nat)
          else
            match rest1 with
            | [] => (RuneError, 1%nat)
            | b2 :: rest2 =>
              if negb (is_cont b2) then (RuneError, 1%nat)
              else if (sz <=? 3)%nat
              then (Z.lor (Z.lor (Z.shiftl (Z.land p0 15) 12)
                                 (Z.shiftl (Z.land b1 63) 6))
                          (Z.land b2 63), 3%nat)
              else
                match rest2 with
                | [] => (RuneError, 1%nat)
                | b3 :: _ =>
                  if negb (is_cont b3) then (RuneError, 1%nat)
                  else (Z.lor (Z.lor (Z.lor (Z.shiftl (Z.land p0 7) 18)
                                            (Z.shiftl (Z.land b1 63) 12))
                                     (Z.shiftl (Z.land b2 63) 6))
                              (Z.land b3 63), 4%nat)
                end
            end
        end
      end
  end.

(** [unicode.IsSpace]: the Latin-1 spaces, then the rest of White_Space. *)
Definition unicode_IsSpace (r : rune) : bool :=
  if (0 <=? r) && (r <=? 255) then
    (r =? 9) || (r =? 10) || (r =? 11) || (r =? 12) || (r =? 13) || (r =? 32)
    || (r =? 133) || (r =? 160)
  else
    (r =? 5760) || ((8192 <=? r) && (r <=? 8202)) || (r =? 8232) || (r =? 8233)
    || (r =? 8239) || (r =? 8287) || (r =? 12288).

(** [bytes.FieldsFunc]: the loop over [s], one code point at a time.
    [start] is the field being read, if any (in Go: [start >= 0], the
    field being [s[start:i]]); [pending] counts the bytes of the current
    code point still to step over (in Go: [i += size]). *)
Fixpoint FieldsFunc_loop (f : rune -> bool) (s : list byte) (pending : nat)
    (start : option (list byte)) : list (list byte) :=
  match s with
  | [] =>
    match start with
    | Some field => [field]
    | None => []
    end
  | b :: s' =>
    match pending with
    | S k => FieldsFunc_loop f s' k (option_map (fun field => field ++ [b]) start)
    | O =>
      let '(r, size) := if RuneSelf <=? b then utf8_DecodeRune s else (b, 1%nat) in
      if f r then
        match start with
        | Some field => field :: FieldsFunc_loop f s' (size - 1) None
        | None => FieldsFunc_loop f s' (size - 1) None
        end
      else
        match start with
        | Some field => FieldsFunc_loop f s' (size - 1) (Some (field ++ [b]))
        | None => FieldsFunc_loop f s' (size - 1) (Some [b])
        end
    end
  end.

Definition bytes_FieldsFunc (s : list byte) (f : rune -> bool) : list (list byte) :=
  FieldsFunc_loop f s 0 None.

(** [bytes.Fields]: [s] read as UTF-8 and split around each run of white
    space.  (Go's fast path for all-ASCII input computes the same slices
    without decoding.) *)
Definition bytes_Fields (s : list byte) : list (list byte) :=
  bytes_FieldsFunc s unicode_IsSpace.

(** ** The response writer of [net/http] *)

Inductive payload : Type :=
| Text (s : string)
| Json (v : json).

(** [Header] is the header map the handler edits; [wrote] is the status
    line and the headers as they went out at [WriteHeader] (edits to
    [Header] after that reach nobody); [Body] is what was written, in
    order. *)
Record ResponseWriter := mkWriter {
  Header : gmap string (list string);
  wrote : option (Z * gmap string (list string));
  Body : list payload
}.

Definition newWriter : ResponseWriter := mkWriter ∅ None [].

Definition Header_Set (k v : string) (w : ResponseWriter) : ResponseWriter :=
  mkWriter (<[k := [v]]> (Header w)) (wrote w) (Body w).

Definition Header_Del (k : string) (w : ResponseWriter) : ResponseWriter :=
  mkWriter (delete k (Header w)) (wrote w) (Body w).

Definition WriteHeader (code : Z) (w : ResponseWriter) : ResponseWriter :=
  match wrote w with
  | Some _ => w
  | None => mkWriter (Header w) (Some (code, Header w)) (Body w)
  end.

Definition Write (p : payload) (w : ResponseWriter) : ResponseWriter :=
  let w1 := WriteHeader 200 w in
  mkWriter (Header w1) (wrote w1) (Body w1 ++ [p]).

Definition StatusOK : Z := 200.
Definition StatusBadRequest : Z := 400.
Definition StatusMethodNotAllowed : Z := 405.
Definition StatusInternalServerError : Z := 500.
Definition StatusBadGateway : Z := 502.

Definition newline : string := String (ascii_of_nat 10) EmptyString.

(** [http.Error]: a plain-text reply with the given status. *)
Definition http_Error (w : ResponseWriter) (error : string) (code : Z) : ResponseWriter :=
  let w := Header_Del "Content-Length" w in
  let w := Header_Set "Content-Type" "text/plain; charset=utf-8" w in
  let w := Header_Set "X-Content-Type-Options" "nosniff" w in
  let w := WriteHeader code w in
  Write (Text (String.append error newline)) w.

(** What the client of the proxy receives once the handler has returned: a
    handler that wrote nothing still answers 200. *)
Record HttpResponse := mkResponse {
  resp_status : Z;
  resp_header : gmap string (list string);
  resp_body : list payload
}.

Definition finishRequest (w : ResponseWriter) : HttpResponse :=
  match wrote w with
  | Some (code, h) => mkResponse code h (Body w)
  | None => mkResponse StatusOK (Header w) (Body w)
  end.

Definition Header_Get (k : string) (h : gmap string (list string)) : string :=
  match h !! k with
  | Some (v :: _) => v
  | _ => ""
  end.

(** ** The request, and the world outside the handler *)

Record Request := mkRequest { Method : string; req_Body : string }.

Inductive ReadResult : Type :=
| ReadError
| ReadOK (body : string).

(** The upstream's answer to [http.Post]: a transport error, or a response
    with whatever status the upstream chose and a body still to be read. *)
Inductive PostResult : Type :=
| PostError (err : string)
| PostResponse (status : Z) (body : ReadResult).

Record PostCall := mkPost { post_url : string; post_contentType : string; post_body : json }.

Record LogLine := mkLog { log_Model : string; log_Latency : Z; log_Tokens : Z }.

Record Env := mkEnv {
  (** [json.NewDecoder(r.Body).Decode(&req)], [None] for an error *)
  json_Decode : string -> option CompletionRequest.t;
  (** [http.Post] *)
  http_Post : PostCall -> PostResult;
  (** [json.Unmarshal(body, &ollamaResp)], [None] for an error *)
  json_Unmarshal : string -> option OllamaResponse.t;
  (** [time.Since(start)], in nanoseconds *)
  time_Since : Z
}.

(** What one run of the handler leaves behind: the writer, the upstream
    calls it made, and the log lines it printed. *)
Record Run := mkRun {
  writer : ResponseWriter;
  posted : list PostCall;
  logged : list LogLine
}.

Definition ollamaURL : string := "http://localhost:11434/api/generate".

(** ** [handleCompletion] (lines 450-517)

    The file holds a second, commented copy of the proxy (lines 525-691);
    it differs from this one in the text of the 405 reply only. *)
Definition handleCompletion (E : Env) (w : ResponseWriter) (r : Request) : Run :=
  if negb (String.eqb (Method r) "POST") then
    mkRun (http_Error w "Method not allowed" StatusMethodNotAllowed) [] []
  else
    match json_Decode E (req_Body r) with
    | None => mkRun (http_Error w "Invalid request body" StatusBadRequest) [] []
    | Some req =>
      let ollamaReq :=
        OllamaRequest.mk (CompletionRequest.Model req) (CompletionRequest.Prompt req) false in
      match json_Marshal ollamaReq with
      | inr _ =>
        mkRun (http_Error w "Failed to build request" StatusInternalServerError) [] []
      | inl ollamaBody =>
        let call := mkPost ollamaURL "application/json" ollamaBody in
        match http_Post E call with
        | PostError err =>
          mkRun (http_Error w (String.append "Ollama error: " err) StatusBadGateway) [call] []
        | PostResponse _ respBody =>
          match respBody with
          | ReadError =>
            mkRun (http_Error w "Failed to read response" StatusInternalServerError)
                  [call] []
          | ReadOK body =>
            match json_Unmarshal E body with
            | None =>
              mkRun (http_Error w "Failed to parse Ollama response"
                                StatusInternalServerError) [call] []
            | Some ollamaResp =>
              let elapsed := time_Since E in
              let tokens :=
                Z.of_nat (length (bytes_Fields
                                    (bytes_of_string (OllamaResponse.Response ollamaResp)))) in
              let response :=
                CompletionResponse.mk
                  [Choice.mk (OllamaResponse.Response ollamaResp)]
                  (Usage.mk tokens) in
              let w := Header_Set "Content-Type" "application/json" w in
              mkRun (Write (Json (marshal_CompletionResponse response)) w)
                    [call]
                    [mkLog (CompletionRequest.Model req) elapsed tokens]
            end
          end
        end
      end
    end.

(** ** [enableCORS] (lines 435-448) *)
Definition enableCORS (next : ResponseWriter -> Request -> Run)
    (w : ResponseWriter) (r : Request) : Run :=
  let w := Header_Set "Access-Control-Allow-Origin" "*" w in
  let w := Header_Set "Access-Control-Allow-Methods" "POST, OPTIONS" w in
  let w := Header_Set "Access-Control-Allow-Headers" "Content-Type" w in
  if String.eqb (Method r) "OPTIONS" then
    mkRun (WriteHeader StatusOK w) [] []
  else
    next w r.

(** The endpoint as [main] registers it (line 520):
    [enableCORS(handleCompletion)], served on a fresh writer. *)
Definition endpoint (E : Env) (r : Request) : Run :=
  enableCORS (handleCompletion E) newWriter r.

Definition serve (E : Env) (r : Request) : HttpResponse :=
  finishRequest (writer (endpoint E r)).

(* ====================================================================== *)
(** * Part II. The React client *)
(* ====================================================================== *)

(** ** JavaScript values the component handles *)

(** A JavaScript string is a sequence of UTF-16 code units. *)
Definition code_unit := N.
Definition jsstring := list code_unit.

(** An ASCII literal as a JavaScript string. *)
Definition js (s : string) : jsstring :=
  map N_of_ascii (list_ascii_of_string s).

(** A JavaScript number is an IEEE 754 binary64 value. *)
Definition number := float.

(** The number an array length or count converts to (exact below 2^53). *)
Definition Number_of_nat (n : nat) : number :=
  PrimFloat.of_uint63 (Uint63.of_Z (Z.of_nat n)).

(** [String(n)] for a non-negative integer such as an HTTP status. *)
Definition Number_toString (n : N) : jsstring :=
  js (NilEmpty.string_of_uint (N.to_uint n)).

(** ECMAScript WhiteSpace: TAB, VT, FF, ZWNBSP and category Zs. *)
Definition isWhiteSpace (c : code_unit) : bool :=
  ((c =? 9) || (c =? 11) || (c =? 12) || (c =? 65279)
   || (c =? 32) || (c =? 160) || (c =? 5760)
   || ((8192 <=? c) && (c <=? 8202))
   || (c =? 8239) || (c =? 8287) || (c =? 12288))%N.

(** ECMAScript LineTerminator: LF, CR, LS, PS. *)
Definition isLineTerminator (c : code_unit) : bool :=
  ((c =? 10) || (c =? 13) || (c =? 8232) || (c =? 8233))%N.

(** What [String.prototype.trim] strips. *)
Definition isTrimmed (c : code_unit) : bool :=
  isWhiteSpace c || isLineTerminator c.

Fixpoint trimStart (s : jsstring) : jsstring :=
  match s with
  | [] => []
  | c :: s' => if isTrimmed c then trimStart s' else s
  end.

Definition trimEnd (s : jsstring) : jsstring := rev (trimStart (rev s)).

Definition trim (s : jsstring) : jsstring := trimEnd (trimStart s).

(** [ToBoolean] of a string: only the empty string is falsy. *)
Definition truthy (s : jsstring) : bool :=
  match s with
  | [] => false
  | _ :: _ => true
  end.

(** [s.split(sep)] for a separator of one code unit: the pieces between
    the occurrences of [sep], empty pieces included. *)
Fixpoint split (sep : code_unit) (s : jsstring) : list jsstring :=
  match s with
  | [] => [[]]
  | c :: s' =>
    if (c =? sep)%N then [] :: split sep s'
    else
      match split sep s' with
      | piece :: pieces => (c :: piece) :: pieces
      | [] => [[c]]
      end
  end.

Definition space : code_unit := 32%N.

(** ** The interfaces (lines 14-28) *)

Record Metrics := mkMetrics {
  latency : number;
  tokens : number;
  tokensPerSecond : number
}.

Inductive Role : Type := user | assistant.

Record Message := mkMessage {
  role : Role;
  content : jsstring;
  metrics : option Metrics
}.

Record ApiChoice := mkApiChoice { text : jsstring }.

Record ApiUsage := mkApiUsage { completion_tokens : number }.

Record ApiResponse := mkApiResponse {
  choices : list ApiChoice;
  usage : option ApiUsage
}.

(** ** The component state (lines 31-35) *)

Record AppState := mkApp {
  messages : list Message;
  input : jsstring;
  model : jsstring;
  maxTokens : number;
  isLoading : bool
}.

Definition initialState : AppState :=
  mkApp [] [] (js "facebook/opt-1.3b") 150%float false.

(** ** Session metrics (lines 50-70) *)

(** [messages.filter((m) => m.metrics).map((m) => m.metrics!)] *)
Definition sessionMetrics (msgs : list Message) : list Metrics :=
  omap metrics msgs.

Definition reduce_sum (field : Metrics -> number) (sm : list Metrics) : number :=
  fold_left (fun sum m => PrimFloat.add sum (field m)) sm 0%float.

Definition avgLatency (msgs : list Message) : number :=
  let sm := sessionMetrics msgs in
  if (0 <? length sm)%nat
  then PrimFloat.div (reduce_sum latency sm) (Number_of_nat (length sm))
  else 0%float.

Definition avgThroughput (msgs : list Message) : number :=
  let sm := sessionMetrics msgs in
  if (0 <? length sm)%nat
  then PrimFloat.div (reduce_sum tokensPerSecond sm) (Number_of_nat (length sm))
  else 0%float.

Definition totalTokens (msgs : list Message) : number :=
  reduce_sum tokens (sessionMetrics msgs).

(** The "Requests" figure of the sidebar: [sessionMetrics.length]. *)
Definition requestCount (msgs : list Message) : nat :=
  length (sessionMetrics msgs).

(** ** The network, as the component sees it *)

Record RequestBody := mkBody {
  body_model : jsstring;
  body_prompt : jsstring;
  body_max_tokens : number
}.

Record FetchRequest := mkFetch {
  fetch_url : jsstring;
  fetch_method : jsstring;
  fetch_headers : list (jsstring * jsstring);
  fetch_body : RequestBody
}.

(** What [response.json()] settles to: a rejection when the body is not
    JSON, else the value, read at the type the code gives it. *)
Inductive JsonResult : Type :=
| JsonRejected
| JsonValue (data : ApiResponse).

Record FetchResponse := mkFetchResponse {
  status : N;
  json_body : JsonResult
}.

(** [response.ok]: the status is in the range 200-299. *)
Definition ok (r : FetchResponse) : bool :=
  ((200 <=? status r) && (status r <=? 299))%N.

(** What [fetch] settles to: a rejection for a transport failure, else
    the response, whatever its status. *)
Inductive FetchResult : Type :=
| FetchRejected
| FetchResolved (response : FetchResponse).

(** The world of one exchange: the two readings of [performance.now()]
    and the backend's answer. *)
Record World := mkWorld {
  now_before : number;
  now_after : number;
  fetch : FetchRequest -> FetchResult
}.

(** ** Effects: state, the network log, exceptions *)

Inductive exn : Type := TypeError | SyntaxError | NetworkError.

Inductive completion (A : Type) : Type :=
| Normal (a : A)
| Throw (e : exn).
Arguments Normal {A} a.
Arguments Throw {A} e.

Record Machine := mkMachine {
  app : AppState;
  network : list FetchRequest
}.

Definition M (A : Type) : Type := Machine -> completion A * Machine.

Definition ret {A} (a : A) : M A := fun m => (Normal a, m).

Definition throw {A} (e : exn) : M A := fun m => (Throw e, m).

Definition bind {A B} (c : M A) (k : A -> M B) : M B :=
  fun m =>
    match c m with
    | (Normal a, m') => k a m'
    | (Throw e, m') => (Throw e, m')
    end.

Declare Scope js_scope.
Delimit Scope js_scope with js.
Notation "x <- c ;; k" := (bind c (fun x => k))
  (at level 100, c at next level, right associativity) : js_scope.
Notation "c ;;; k" := (bind c (fun _ => k))
  (at level 100, right associativity) : js_scope.

(** [try { body } catch (err) { handler } finally { cleanup }] *)
Definition try_catch_finally {A} (body : M A) (handler : exn -> M A)
    (cleanup : M unit) : M A :=
  fun m =>
    let '(r1, m1) := body m in
    let '(r2, m2) :=
      match r1 with
      | Normal a => (Normal a, m1)
      | Throw e => handler e m1
      end in
    match cleanup m2 with
    | (Normal _, m3) => (r2, m3)
    | (Throw e, m3) => (Throw e, m3)
    end.

(** A state setter takes the next value or a function of the current one. *)
Inductive SetStateAction (A : Type) : Type :=
| Value (a : A)
| Updater (f : A -> A).
Arguments Value {A} a.
Arguments Updater {A} f.

Definition apply_action {A} (act : SetStateAction A) (prev : A) : A :=
  match act with
  | Value a => a
  | Updater f => f prev
  end.

Definition modify (f : AppState -> AppState) : M unit :=
  fun m => (Normal tt, mkMachine (f (app m)) (network m)).

Definition setMessages (act : SetStateAction (list Message)) : M unit :=
  modify (fun s => mkApp (apply_action act (messages s)) (input s) (model s)
                         (maxTokens s) (isLoading s)).

Definition setInput (act : SetStateAction jsstring) : M unit :=
  modify (fun s => mkApp (messages s) (apply_action act (input s)) (model s)
                         (maxTokens s) (isLoading s)).

Definition setIsLoading (act : SetStateAction bool) : M unit :=
  modify (fun s => mkApp (messages s) (input s) (model s) (maxTokens s)
                         (apply_action act (isLoading s))).

(** [await fetch(url, init)]: the request goes out; a rejection throws. *)
Definition await_fetch (W : World) (req : FetchRequest) : M FetchResponse :=
  fun m =>
    let m' := mkMachine (app m) (network m ++ [req]) in
    match fetch W req with
    | FetchRejected => (Throw NetworkError, m')
    | FetchResolved response => (Normal response, m')
    end.

(** [await response.json()] *)
Definition await_json (response : FetchResponse) : M ApiResponse :=
  match json_body response with
  | JsonRejected => throw SyntaxError
  | JsonValue data => ret data
  end.

(** [a[i]]: [undefined] past the end. *)
Definition index {A} (a : list A) (i : nat) : option A := nth_error a i.

(** [c.text], where [c] may be [undefined]: reading a property of
    [undefined] throws a TypeError. *)
Definition dot_text (c : option ApiChoice) : M jsstring :=
  match c with
  | None => throw TypeError
  | Some choice => ret (text choice)
  end.

Definition BACKEND_URL : jsstring := js "http://localhost:8000".

(** ** [handleSend] (lines 73-141) *)

(** The body of the [try] block (lines 86-130); [st] is the state the
    handler closed over at render time. *)
Definition handleSend_try (W : World) (st : AppState) : M unit :=
  (let startTime := now_before W in
   response <- await_fetch W
     (mkFetch (BACKEND_URL ++ js "/v1/completions") (js "POST")
              [(js "Content-Type", js "application/json")]
              (mkBody (model st) (input st) (maxTokens st))) ;;
   let latency := PrimFloat.div (PrimFloat.sub (now_after W) startTime) 1000%float in
   if ok response then
     data <- await_json response ;;
     text <- dot_text (index (choices data) 0) ;;
     let tokens :=
       match usage data with
       | Some u => completion_tokens u
       | None => Number_of_nat (length (split space text))
       end in
     let tokensPerSecond :=
       if PrimFloat.ltb 0%float latency then PrimFloat.div tokens latency else 0%float in
     let assistantMessage :=
       mkMessage assistant text (Some (mkMetrics latency tokens tokensPerSecond)) in
     setMessages (Updater (fun prev => prev ++ [assistantMessage]))
   else
     setMessages (Updater (fun prev =>
       prev ++ [mkMessage assistant
                          (js "Error: API returned " ++ Number_toString (status response))
                          None])))%js.

Definition handleSend (W : World) (st : AppState) : M unit :=
  (if negb (truthy (trim (input st))) || isLoading st then ret tt
   else
     let userMessage := mkMessage user (input st) None in
     setMessages (Updater (fun prev => prev ++ [userMessage])) ;;;
     setInput (Value []) ;;;
     setIsLoading (Value true) ;;;
     try_catch_finally
       (handleSend_try W st)
       (fun err =>
          setMessages (Updater (fun currectMessages =>
            currectMessages ++
              [mkMessage assistant (js "Error: Could not connect to backend") None])))
       (setIsLoading (Value false)))%js.

(** ** [clearChat] (lines 152-154) *)
Definition clearChat : M unit := setMessages (Value []).

(** One click on Send, or on Clear, from state [st] with nothing on the
    wire yet. *)
Definition start (st : AppState) : Machine := mkMachine st [].

Definition send (W : World) (st : AppState) : Machine :=
  snd (handleSend W st (start st)).

Definition clear (st : AppState) : Machine :=
  snd (clearChat (start st)).

(** The assistant's message an exchange appended, if it appended one. *)
Definition reply (m : Machine) : option Message := last (messages (app m)).

(** ** The send button (line 359)

    [disabled={!input.trim() || isLoading}] *)
Definition sendDisabled (st : AppState) : bool :=
  negb (truthy (trim (input st))) || isLoading st.

(** ** [handleKeyDown] (lines 144-149) *)

Record KeyboardEvent := mkKey { key : jsstring; shiftKey : bool }.

(** [a === b] on strings: the same code units. *)
Fixpoint strict_equal (a b : jsstring) : bool :=
  match a, b with
  | [], [] => true
  | x :: a', y :: b' => (x =? y)%N && strict_equal a' b'
  | _, _ => false
  end.

(** The handler's result says whether it called [e.preventDefault()].
    [handleSend()] is called and not awaited; the run of it is sequenced
    here. *)
Definition handleKeyDown (W : World) (st : AppState) (e : KeyboardEvent) : M bool :=
  (if strict_equal (key e) (js "Enter") && negb (shiftKey e)
   then handleSend W st ;;; ret true
   else ret false)%js.

(* ====================================================================== *)
(** * Part III. The vocabulary of the specification *)
(* ====================================================================== *)

(** The pieces a text falls into when it is cut at every delimiter. *)
Fixpoint pieces {A} (delim : A -> bool) (l : list A) : list (list A) :=
  match l with
  | [] => [[]]
  | x :: l' =>
    if delim x then [] :: pieces delim l'
    else
      match pieces delim l' with
      | p :: ps => (x :: p) :: ps
      | [] => [[x]]
      end
  end.

Definition nonempty {A} (l : list A) : bool :=
  match l with
  | [] => false
  | _ :: _ => true
  end.

(** The delimited fields of a text: its non-empty pieces. *)
Definition delimited_fields {A} (delim : A -> bool) (l : list A) : list (list A) :=
  List.filter nonempty (pieces delim l).

(** The code points of a byte string read as UTF-8, an ill-formed byte
    counting as one code point (U+FFFD); [pending] bytes are stepped over
    first. *)
Fixpoint utf8_runes_from (pending : nat) (s : list byte) : list rune :=
  match s with
  | [] => []
  | b :: s' =>
    match pending with
    | S k => utf8_runes_from k s'
    | O =>
      let '(r, size) := if RuneSelf <=? b then utf8_DecodeRune s else (b, 1%nat) in
      r :: utf8_runes_from (size - 1) s'
    end
  end.

Definition utf8_runes (s : list byte) : list rune := utf8_runes_from 0 s.

(** The number of whitespace-delimited fields of a Go string. *)
Definition whitespace_field_count (s : string) : nat :=
  length (delimited_fields unicode_IsSpace (utf8_runes (bytes_of_string s))).

(** The number of whitespace-delimited words of a JavaScript string. *)
Definition whitespace_word_count (s : jsstring) : nat :=
  length (delimited_fields isTrimmed s).

(** The number of occurrences of a code unit in a JavaScript string. *)
Definition occurrences (c : code_unit) (s : jsstring) : nat :=
  length (List.filter (fun x => (x =? c)%N) s).

(** How many fields a scan still has to deliver when the rest of the text
    falls into the pieces [pcs] and a field is open ([open]) or not. *)
Definition fields_ahead {A} (open : bool) (pcs : list (list A)) : nat :=
  match pcs with
  | [] => if open then 1%nat else 0%nat
  | p :: ps =>
    ((if open || nonempty p then 1 else 0) + length (List.filter nonempty ps))%nat
  end.

(** The CORS header set of the proxy. *)
Definition carries_CORS (h : gmap string (list string)) : Prop :=
  h !! "Access-Control-Allow-Origin" = Some ["*"]
  ∧ h !! "Access-Control-Allow-Methods" = Some ["POST, OPTIONS"]
  ∧ h !! "Access-Control-Allow-Headers" = Some ["Content-Type"].

(** The upstream call the proxy makes for a decoded request. *)
Definition upstream_call (req : CompletionRequest.t) : PostCall :=
  mkPost "http://localhost:11434/api/generate" "application/json"
         (JObject [ ("model", JString (CompletionRequest.Model req));
                    ("prompt", JString (CompletionRequest.Prompt req));
                    ("stream", JBool false) ]).

(** The writer once [enableCORS] has set its three headers. *)
Definition cors (w : ResponseWriter) : ResponseWriter :=
  Header_Set "Access-Control-Allow-Headers" "Content-Type"
    (Header_Set "Access-Control-Allow-Methods" "POST, OPTIONS"
       (Header_Set "Access-Control-Allow-Origin" "*" w)).

(** An environment for the scenario of the specification: the request
    body decodes as {model:"llama3.2", prompt:"hello", max_tokens:150},
    the upstream answers with the given status and a body that decodes as
    {response:"hi there", done:true}. *)
Definition scenario_env (upstream_status : Z) : Env :=
  mkEnv (fun _ => Some (CompletionRequest.mk "llama3.2" "hello" 150))
        (fun _ => PostResponse upstream_status (ReadOK "upstream body"))
        (fun _ => Some (OllamaResponse.mk "llama3.2" "hi there" true 0 0))
        1000000.

Definition scenario_request : Request := mkRequest "POST" "request body".

(** The request [handleSend] sends from state [st]. *)
Definition completion_request (st : AppState) : FetchRequest :=
  mkFetch (js "http://localhost:8000/v1/completions") (js "POST")
          [(js "Content-Type", js "application/json")]
          (mkBody (model st) (input st) (maxTokens st)).

(** The two error messages of the client. *)
Definition connect_error : Message :=
  mkMessage assistant (js "Error: Could not connect to backend") None.

Definition api_error (code : N) : Message :=
  mkMessage assistant (js "Error: API returned " ++ Number_toString code) None.

(** The machine after an exchange from [st] that ended with [answer]: the
    user's message and the answer appended, the input cleared, the busy
    flag down again, one request on the wire. *)
Definition settled (st : AppState) (answer : Message) : Machine :=
  mkMachine
    (mkApp (messages st ++ [mkMessage user (input st) None; answer]) []
           (model st) (maxTokens st) false)
    [completion_request st].

(** The latency [handleSend] measures, in seconds. *)
Definition measured_latency (W : World) : number :=
  PrimFloat.div (PrimFloat.sub (now_after W) (now_before W)) 1000%float.

(** The message of a successful exchange whose first choice is [first]. *)
Definition answer_of (W : World) (data : ApiResponse) (first : ApiChoice) : Message :=
  let tokens :=
    match usage data with
    | Some u => completion_tokens u
    | None => Number_of_nat (length (split space (text first)))
    end in
  mkMessage assistant (text first)
    (Some (mkMetrics (measured_latency W) tokens
             (if PrimFloat.ltb 0%float (measured_latency W)
              then PrimFloat.div tokens (measured_latency W) else 0%float))).

(** The exchanges the client counts as completed: the send passed the
    guard of line 75. *)
Definition sendable (st : AppState) : Prop :=
  truthy (trim (input st)) = true /\ isLoading st = false.

(** A state and three worlds for examples: the backend answers 200 with
    one choice "hi  there" (two spaces) and no usage; it answers 200 with
    no choice at all; it answers 502. *)
Definition example_state : AppState :=
  mkApp [] (js "hello") (js "llama3.2") 150%float false.

Definition example_world (answer : FetchResult) : World :=
  mkWorld 1000%float 3000%float (fun _ => answer).

Definition two_spaces : FetchResponse :=
  mkFetchResponse 200 (JsonValue (mkApiResponse [mkApiChoice (js "hi  there")] None)).

Definition no_choices : FetchResponse :=
  mkFetchResponse 200 (JsonValue (mkApiResponse [] None)).

Definition negative_usage : FetchResponse :=
  mkFetchResponse 200
    (JsonValue (mkApiResponse [mkApiChoice (js "hi")]
                              (Some (mkApiUsage (-5)%float)))).

Definition bad_gateway : FetchResponse :=
  mkFetchResponse 502 JsonRejected.

(** An environment in which the request body decodes as [req] (or does
    not decode), the upstream call ends as [answer], and the upstream
    body decodes as [parsed] (or does not). *)
Definition example_env (req : option CompletionRequest.t) (answer : PostResult)
    (parsed : option OllamaResponse.t) : Env :=
  mkEnv (fun _ => req) (fun _ => answer) (fun _ => parsed) 1000000.

(** The endpoint takes one of six paths; each is given with the run it
    leaves behind. *)
Inductive endpoint_path (E : Env) (r : Request) : Run -> Prop :=
| path_preflight :
    Method r = "OPTIONS" ->
    endpoint_path E r (mkRun (WriteHeader StatusOK (cors newWriter)) [] [])
| path_method :
    Method r <> "OPTIONS" -> Method r <> "POST" ->
    endpoint_path E r
      (mkRun (http_Error (cors newWriter) "Method not allowed" StatusMethodNotAllowed)
             [] [])
| path_decode :
    Method r = "POST" -> json_Decode E (req_Body r) = None ->
    endpoint_path E r
      (mkRun (http_Error (cors newWriter) "Invalid request body" StatusBadRequest) [] [])
| path_transport req err :
    Method r = "POST" -> json_Decode E (req_Body r) = Some req ->
    http_Post E (upstream_call req) = PostError err ->
    endpoint_path E r
      (mkRun (http_Error (cors newWriter) (String.append "Ollama error: " err)
                         StatusBadGateway)
             [upstream_call req] [])
| path_upstream_body req st msg :
    Method r = "POST" -> json_Decode E (req_Body r) = Some req ->
    (http_Post E (upstream_call req) = PostResponse st ReadError
     /\ msg = "Failed to read response"
     \/ exists body,
          http_Post E (upstream_call req) = PostResponse st (ReadOK body)
          /\ json_Unmarshal E body = None
          /\ msg = "Failed to parse Ollama response") ->
    endpoint_path E r
      (mkRun (http_Error (cors newWriter) msg StatusInternalServerError)
             [upstream_call req] [])
| path_success req st body ollamaResp :
    Method r = "POST" -> json_Decode E (req_Body r) = Some req ->
    http_Post E (upstream_call req) = PostResponse st (ReadOK body) ->
    json_Unmarshal E body = Some ollamaResp ->
    endpoint_path E r
      (mkRun
         (Write (Json (marshal_CompletionResponse
                         (CompletionResponse.mk
                            [Choice.mk (OllamaResponse.Response ollamaResp)]
                            (Usage.mk (Z.of_nat (whitespace_field_count
                                                   (OllamaResponse.Response ollamaResp)))))))
                (Header_Set "Content-Type" "application/json" (cors newWriter)))
         [upstream_call req]
         [mkLog (CompletionRequest.Model req) (time_Since E)
                (Z.of_nat (whitespace_field_count (OllamaResponse.Response ollamaResp)))]).

(* ====================================================================== *)
(** * Part IV. Properties of the proxy *)
(* ====================================================================== *)

(** ** Counting fields *)

Lemma pieces_not_nil {A} (delim : A -> bool) (l : list A) : pieces delim l <> [].
Proof.
  destruct l as [|x l]; simpl; [discriminate|].
  destruct (delim x); [discriminate|].
  destruct (pieces delim l); discriminate.
Qed.

Lemma fields_ahead_closed {A} (pcs : list (list A)) :
  pcs <> [] -> fields_ahead false pcs = length (List.filter nonempty pcs).
Proof.
  destruct pcs as [|p ps]; [congruence|]. intros _. simpl.
  destruct (nonempty p); reflexivity.
Qed.

Lemma fields_ahead_delim {A} (open : bool) (pcs : list (list A)) :
  pcs <> [] ->
  fields_ahead open ([] :: pcs) = ((if open then 1 else 0) + fields_ahead false pcs)%nat.
Proof.
  intros Hne. rewrite (fields_ahead_closed pcs Hne). simpl.
  rewrite orb_false_r. reflexivity.
Qed.

Lemma fields_ahead_extend {A} (delim : A -> bool) (open : bool) (x : A) (l : list A) :
  delim x = false ->
  fields_ahead open (pieces delim (x :: l)) = fields_ahead true (pieces delim l).
Proof.
  intros Hx. simpl. rewrite Hx.
  pose proof (pieces_not_nil delim l) as Hne.
  destruct (pieces delim l) as [|p ps]; [congruence|].
  simpl. rewrite orb_true_r. reflexivity.
Qed.

(** The loop of [bytes.FieldsFunc] delivers as many fields as the text it
    has still to read holds, an open field included. *)
Lemma FieldsFunc_loop_length (f : rune -> bool) (s : list byte) :
  forall (pending : nat) (start : option (list byte)),
    length (FieldsFunc_loop f s pending start)
    = fields_ahead (bool_decide (is_Some start)) (pieces f (utf8_runes_from pending s)).
Proof.
  induction s as [|b s IH]; intros pending start.
  - destruct start; reflexivity.
  - destruct pending as [|k].
    + cbn [FieldsFunc_loop utf8_runes_from].
      destruct (if RuneSelf <=? b then utf8_DecodeRune (b :: s) else (b, 1%nat))
        as [r size] eqn:Hdec.
      destruct (f r) eqn:Hf.
      * cbn [pieces]. rewrite Hf.
        rewrite fields_ahead_delim by apply pieces_not_nil.
        destruct start as [field|]; cbn [length]; rewrite IH; reflexivity.
      * rewrite (fields_ahead_extend f _ r _ Hf).
        destruct start as [field|]; rewrite IH; reflexivity.
    + cbn [FieldsFunc_loop utf8_runes_from]. rewrite IH.
      destruct start; reflexivity.
Qed.

(** [len(bytes.Fields(s))] is the number of whitespace-delimited fields. *)
Lemma bytes_Fields_length (s : string) :
  length (bytes_Fields (bytes_of_string s)) = whitespace_field_count s.
Proof.
  unfold bytes_Fields, bytes_FieldsFunc, whitespace_field_count, delimited_fields, utf8_runes.
  rewrite FieldsFunc_loop_length.
  apply fields_ahead_closed, pieces_not_nil.
Qed.

(** Every field [bytes.Fields] returns is non-empty. *)
Lemma FieldsFunc_loop_nonempty (f : rune -> bool) (s : list byte) :
  forall (pending : nat) (start : option (list byte)) (field : list byte),
    (forall fld, start = Some fld -> fld <> []) ->
    In field (FieldsFunc_loop f s pending start) -> field <> [].
Proof.
  induction s as [|b s IH]; intros pending start field Hstart Hin.
  - destruct start as [fld|]; simpl in Hin; [|contradiction].
    destruct Hin as [<-|[]]. apply Hstart. reflexivity.
  - destruct pending as [|k]; cbn [FieldsFunc_loop] in Hin.
    + destruct (if RuneSelf <=? b then utf8_DecodeRune (b :: s) else (b, 1%nat))
        as [r size].
      destruct (f r), start as [fld|].
      * destruct Hin as [<-|Hin]; [apply Hstart; reflexivity|].
        eapply IH; [|exact Hin]. discriminate.
      * eapply IH; [|exact Hin]. discriminate.
      * eapply IH; [|exact Hin]. intros ? [= <-]. destruct fld; discriminate.
      * eapply IH; [|exact Hin]. intros ? [= <-]. discriminate.
    + eapply IH; [|exact Hin].
      intros fld' Hfld'. destruct start as [fld|]; [|discriminate].
      injection Hfld' as <-. destruct fld; discriminate.
Qed.

(** ** The paths through the endpoint *)

Lemma enableCORS_unfold next w r :
  enableCORS next w r
  = if String.eqb (Method r) "OPTIONS"
    then mkRun (WriteHeader StatusOK (cors w)) [] []
    else next (cors w) r.
Proof. reflexivity. Qed.

Lemma marshal_translated (req : CompletionRequest.t) :
  mkPost ollamaURL "application/json"
         (marshal_OllamaRequest
            (OllamaRequest.mk (CompletionRequest.Model req)
                              (CompletionRequest.Prompt req) false))
  = upstream_call req.
Proof. reflexivity. Qed.

(** The CORS headers survive everything the handler does to the header
    map: it only ever touches three other names. *)
Lemma carries_CORS_http_Error (w : ResponseWriter) (msg : string) (code : Z) :
  wrote w = None ->
  carries_CORS (Header w) ->
  carries_CORS (resp_header (finishRequest (http_Error w msg code))).
Proof.
  intros Hw (Ho & Hm & Hh).
  unfold http_Error, Write, WriteHeader, Header_Set, Header_Del, finishRequest.
  cbn. rewrite Hw. cbn.
  repeat split;
    rewrite !lookup_insert_ne, lookup_delete_ne by discriminate; assumption.
Qed.

Lemma carries_CORS_cors : carries_CORS (Header (cors newWriter)).
Proof. repeat split. Qed.

(** The successful path, in full. *)
Lemma endpoint_success (E : Env) (r : Request) (req : CompletionRequest.t)
    (upstream_status : Z) (body : string) (ollamaResp : OllamaResponse.t) :
  Method r = "POST" ->
  json_Decode E (req_Body r) = Some req ->
  http_Post E (upstream_call req) = PostResponse upstream_status (ReadOK body) ->
  json_Unmarshal E body = Some ollamaResp ->
  let tokens :=
    Z.of_nat (length (bytes_Fields (bytes_of_string (OllamaResponse.Response ollamaResp)))) in
  endpoint E r
  = mkRun
      (Write (Json (marshal_CompletionResponse
                      (CompletionResponse.mk
                         [Choice.mk (OllamaResponse.Response ollamaResp)]
                         (Usage.mk tokens))))
             (Header_Set "Content-Type" "application/json" (cors newWriter)))
      [upstream_call req]
      [mkLog (CompletionRequest.Model req) (time_Since E) tokens].
Proof.
  intros Hmethod Hdecode Hpost Hparse tokens.
  unfold endpoint. rewrite enableCORS_unfold, Hmethod. cbn [String.eqb Ascii.eqb Bool.eqb].
  unfold handleCompletion. rewrite Hmethod. cbn [String.eqb Ascii.eqb Bool.eqb negb].
  rewrite Hdecode. cbn [json_Marshal]. rewrite marshal_translated, Hpost, Hparse.
  reflexivity.
Qed.

(** Whatever path the handler takes, it answers through [http.Error] on
    the writer it was given, or with the JSON reply of the successful
    path. *)
Lemma handleCompletion_writer (E : Env) (w : ResponseWriter) (r : Request) :
  (exists msg code, writer (handleCompletion E w r) = http_Error w msg code)
  \/ (exists v, writer (handleCompletion E w r)
                = Write (Json v) (Header_Set "Content-Type" "application/json" w)).
Proof.
  unfold handleCompletion.
  destruct (negb (String.eqb (Method r) "POST")); [left; eauto|].
  destruct (json_Decode E (req_Body r)) as [req|]; [|left; eauto].
  cbn [json_Marshal].
  destruct (http_Post E _) as [err|st [|body]]; [left; eauto | left; eauto |].
  destruct (json_Unmarshal E body) as [ollamaResp|]; [right; eauto | left; eauto].
Qed.

(** Every upstream call the handler makes is the translation of the
    decoded request, and it makes one as soon as the request decodes. *)
Lemma handleCompletion_posted (E : Env) (w : ResponseWriter) (r : Request)
    (req : CompletionRequest.t) :
  Method r = "POST" ->
  json_Decode E (req_Body r) = Some req ->
  posted (handleCompletion E w r) = [upstream_call req].
Proof.
  intros Hmethod Hdecode. unfold handleCompletion.
  rewrite Hmethod, Hdecode. cbn [String.eqb Ascii.eqb Bool.eqb negb json_Marshal].
  rewrite marshal_translated.
  destruct (http_Post E (upstream_call req)) as [err|st [|body]]; try reflexivity.
  destruct (json_Unmarshal E body); reflexivity.
Qed.

(** ** The claims about the proxy *)

(** C1. When the request body decodes as a CompletionRequest and the
    upstream exchange delivers a body that decodes as an UpstreamResponse,
    the proxy answers with a CompletionResponse of exactly one choice,
    whose text is the upstream's response text, and whose
    [usage.completion_tokens] is the number of whitespace-delimited fields
    of that text.  For the upstream text "hi there" the reply is
    {choices:[{text:"hi there"}], usage:{completion_tokens:2}}. *)
Theorem proxy_emits_completion (E : Env) (r : Request) (req : CompletionRequest.t)
    (upstream_status : Z) (body : string) (ollamaResp : OllamaResponse.t) :
  Method r = "POST" ->
  json_Decode E (req_Body r) = Some req ->
  http_Post E (upstream_call req) = PostResponse upstream_status (ReadOK body) ->
  json_Unmarshal E body = Some ollamaResp ->
  exists response : CompletionResponse.t,
    resp_body (serve E r) = [Json (marshal_CompletionResponse response)]
    /\ CompletionResponse.Choices response
       = [Choice.mk (OllamaResponse.Response ollamaResp)]
    /\ Usage.CompletionTokens (CompletionResponse.Usage response)
       = Z.of_nat (whitespace_field_count (OllamaResponse.Response ollamaResp))
    /\ (OllamaResponse.Response ollamaResp = "hi there" ->
        resp_body (serve E r)
        = [Json (JObject
                   [ ("choices", JArray [JObject [("text", JString "hi there")]]);
                     ("usage", JObject [("completion_tokens", JNumber 2)]) ])]).
Proof.
  intros Hmethod Hdecode Hpost Hparse.
  pose proof (endpoint_success E r req upstream_status body ollamaResp
                Hmethod Hdecode Hpost Hparse) as Hrun.
  cbv zeta in Hrun. rewrite bytes_Fields_length in Hrun.
  eexists. unfold serve. rewrite Hrun. cbn [writer].
  split; [reflexivity|]. split; [reflexivity|]. split; [reflexivity|].
  intros ->. reflexivity.
Qed.

(** C4. For every decoded CompletionRequest, the request the proxy builds
    and posts upstream has [stream] false, [model] and [prompt] copied
    from the CompletionRequest, and no [max_tokens] member: its members
    are exactly model, prompt and stream. *)
Theorem proxy_upstream_request (E : Env) (r : Request) (req : CompletionRequest.t) :
  Method r = "POST" ->
  json_Decode E (req_Body r) = Some req ->
  exists upstreamBody : json,
    posted (endpoint E r) = [mkPost ollamaURL "application/json" upstreamBody]
    /\ upstreamBody
       = marshal_OllamaRequest
           (OllamaRequest.mk (CompletionRequest.Model req)
                             (CompletionRequest.Prompt req) false)
    /\ json_member "stream" upstreamBody = Some (JBool false)
    /\ json_member "model" upstreamBody = Some (JString (CompletionRequest.Model req))
    /\ json_member "prompt" upstreamBody = Some (JString (CompletionRequest.Prompt req))
    /\ json_keys upstreamBody = ["model"; "prompt"; "stream"]
    /\ json_member "max_tokens" upstreamBody = None.
Proof.
  intros Hmethod Hdecode.
  exists (post_body (upstream_call req)).
  split.
  - unfold endpoint. rewrite enableCORS_unfold, Hmethod.
    cbn [String.eqb Ascii.eqb Bool.eqb].
    apply handleCompletion_posted; assumption.
  - repeat split.
Qed.

(** C6. An OPTIONS request is answered 200 with an empty body and the
    CORS headers, whatever handler is wrapped (the handler does not run:
    no upstream call, no log line); a request whose method is neither
    OPTIONS nor POST is answered 405 with no upstream call; and every
    response carries the CORS header set. *)
Theorem proxy_methods_and_CORS (E : Env) (r : Request) :
  (Method r = "OPTIONS" ->
     resp_status (serve E r) = 200
     /\ resp_body (serve E r) = []
     /\ posted (endpoint E r) = [] /\ logged (endpoint E r) = []
     /\ forall next, enableCORS next newWriter r = endpoint E r)
  /\ (Method r <> "OPTIONS" -> Method r <> "POST" ->
     resp_status (serve E r) = 405
     /\ posted (endpoint E r) = [] /\ logged (endpoint E r) = [])
  /\ carries_CORS (resp_header (serve E r)).
Proof.
  split; [|split].
  - intros Hmethod. unfold serve, endpoint.
    repeat split; try (rewrite enableCORS_unfold, Hmethod; reflexivity).
    intros next. rewrite !enableCORS_unfold, Hmethod. reflexivity.
  - intros Hopt Hpost. unfold serve, endpoint. rewrite enableCORS_unfold.
    apply String.eqb_neq in Hopt, Hpost. rewrite Hopt.
    unfold handleCompletion. rewrite Hpost. cbn [negb].
    repeat split.
  - unfold serve, endpoint. rewrite enableCORS_unfold.
    destruct (String.eqb (Method r) "OPTIONS").
    + repeat split.
    + destruct (handleCompletion_writer E (cors newWriter) r)
        as [(msg & code & ->)|(v & ->)].
      * apply carries_CORS_http_Error; [reflexivity | apply carries_CORS_cors].
      * repeat split.
Qed.

(** C10. The proxy does not look at the upstream's status code: whatever
    status comes with a body that decodes as an UpstreamResponse, the
    proxy's answer is the same 200 CompletionResponse built from that
    body. *)
Theorem proxy_ignores_upstream_status (E : Env) (r : Request)
    (req : CompletionRequest.t) (upstream_status : Z) (body : string)
    (ollamaResp : OllamaResponse.t) :
  Method r = "POST" ->
  json_Decode E (req_Body r) = Some req ->
  http_Post E (upstream_call req) = PostResponse upstream_status (ReadOK body) ->
  json_Unmarshal E body = Some ollamaResp ->
  serve E r
  = mkResponse 200
      (<["Content-Type" := ["application/json"]]> (Header (cors newWriter)))
      [Json (marshal_CompletionResponse
               (CompletionResponse.mk
                  [Choice.mk (OllamaResponse.Response ollamaResp)]
                  (Usage.mk (Z.of_nat (whitespace_field_count
                                         (OllamaResponse.Response ollamaResp))))))].
Proof.
  intros Hmethod Hdecode Hpost Hparse.
  unfold serve.
  rewrite (endpoint_success E r req upstream_status body ollamaResp
             Hmethod Hdecode Hpost Hparse).
  rewrite bytes_Fields_length. reflexivity.
Qed.

(** The error replies of the proxy: 400 for a body that does not decode,
    502 with the transport error in the text when the upstream cannot be
    reached, 500 when the upstream's body cannot be read or does not
    decode. *)
Theorem proxy_error_statuses (E : Env) (r : Request) :
  Method r = "POST" ->
  (json_Decode E (req_Body r) = None ->
     resp_status (serve E r) = 400 /\ posted (endpoint E r) = [])
  /\ (forall req, json_Decode E (req_Body r) = Some req ->
       (forall err, http_Post E (upstream_call req) = PostError err ->
          resp_status (serve E r) = 502
          /\ resp_body (serve E r)
             = [Text (String.append (String.append "Ollama error: " err) newline)])
       /\ (forall st, http_Post E (upstream_call req) = PostResponse st ReadError ->
            resp_status (serve E r) = 500)
       /\ (forall st body,
              http_Post E (upstream_call req) = PostResponse st (ReadOK body) ->
              json_Unmarshal E body = None ->
              resp_status (serve E r) = 500)).
Proof.
  intros Hmethod.
  unfold serve, endpoint. rewrite enableCORS_unfold, Hmethod.
  cbn [String.eqb Ascii.eqb Bool.eqb].
  unfold handleCompletion. rewrite Hmethod. cbn [String.eqb Ascii.eqb Bool.eqb negb].
  split.
  - intros ->. split; reflexivity.
  - intros req ->. cbn [json_Marshal]. rewrite marshal_translated.
    split; [|split].
    + intros err ->. split; reflexivity.
    + intros st ->. reflexivity.
    + intros st body -> ->. reflexivity.
Qed.

(** ** Witnesses for the proxy claims *)

Lemma proxy_emits_completion_witness :
  exists response : CompletionResponse.t,
    resp_body (serve (scenario_env 200) scenario_request)
    = [Json (marshal_CompletionResponse response)]
    /\ CompletionResponse.Choices response = [Choice.mk "hi there"]
    /\ Usage.CompletionTokens (CompletionResponse.Usage response) = 2.
Proof.
  destruct (proxy_emits_completion (scenario_env 200) scenario_request
              (CompletionRequest.mk "llama3.2" "hello" 150) 200 "upstream body"
              (OllamaResponse.mk "llama3.2" "hi there" true 0 0)
              eq_refl eq_refl eq_refl eq_refl)
    as (response & Hbody & Hchoices & Htokens & _).
  exists response. repeat split; assumption.
Defined.

Lemma proxy_upstream_request_witness :
  exists upstreamBody : json,
    posted (endpoint (scenario_env 200) scenario_request)
    = [mkPost ollamaURL "application/json" upstreamBody]
    /\ json_keys upstreamBody = ["model"; "prompt"; "stream"]
    /\ json_member "max_tokens" upstreamBody = None.
Proof.
  destruct (proxy_upstream_request (scenario_env 200) scenario_request
              (CompletionRequest.mk "llama3.2" "hello" 150) eq_refl eq_refl)
    as (upstreamBody & Hposted & _ & _ & _ & _ & Hkeys & Hmax).
  exists upstreamBody. repeat split; assumption.
Defined.

Lemma proxy_methods_and_CORS_witness :
  resp_status (serve (scenario_env 200) (mkRequest "OPTIONS" "")) = 200
  /\ resp_status (serve (scenario_env 200) (mkRequest "GET" "")) = 405
  /\ carries_CORS (resp_header (serve (scenario_env 200) scenario_request)).
Proof.
  split; [|split].
  - apply (proxy_methods_and_CORS (scenario_env 200) (mkRequest "OPTIONS" "")).
    reflexivity.
  - apply (proxy_methods_and_CORS (scenario_env 200) (mkRequest "GET" ""));
      discriminate.
  - apply (proxy_methods_and_CORS (scenario_env 200) scenario_request).
Defined.

Lemma proxy_ignores_upstream_status_witness :
  serve (scenario_env 500) scenario_request
  = serve (scenario_env 200) scenario_request
  /\ resp_status (serve (scenario_env 404) scenario_request) = 200.
Proof.
  split.
  - rewrite (proxy_ignores_upstream_status (scenario_env 500) scenario_request
               (CompletionRequest.mk "llama3.2" "hello" 150) 500 "upstream body"
               (OllamaResponse.mk "llama3.2" "hi there" true 0 0)
               eq_refl eq_refl eq_refl eq_refl).
    rewrite (proxy_ignores_upstream_status (scenario_env 200) scenario_request
               (CompletionRequest.mk "llama3.2" "hello" 150) 200 "upstream body"
               (OllamaResponse.mk "llama3.2" "hi there" true 0 0)
               eq_refl eq_refl eq_refl eq_refl).
    reflexivity.
  - rewrite (proxy_ignores_upstream_status (scenario_env 404) scenario_request
               (CompletionRequest.mk "llama3.2" "hello" 150) 404 "upstream body"
               (OllamaResponse.mk "llama3.2" "hi there" true 0 0)
               eq_refl eq_refl eq_refl eq_refl).
    reflexivity.
Defined.

Lemma proxy_error_statuses_witness :
  resp_status
    (serve (mkEnv (fun _ => None) (fun _ => PostError "refused") (fun _ => None) 0)
           scenario_request) = 400.
Proof.
  apply (proxy_error_statuses
           (mkEnv (fun _ => None) (fun _ => PostError "refused") (fun _ => None) 0)
           scenario_request eq_refl).
  reflexivity.
Defined.

(* ====================================================================== *)
(** * Part V. Properties of the client *)
(* ====================================================================== *)

(** ** Numbers *)

(** A count is never a negative number. *)
Lemma Number_of_nat_not_negative (n : nat) :
  PrimFloat.ltb (Number_of_nat n) 0%float = false.
Proof.
  unfold Number_of_nat.
  rewrite FloatAxioms.ltb_spec, FloatAxioms.of_uint63_spec.
  pose proof (Uint63.to_Z_bounded (Uint63.of_Z (Z.of_nat n))) as [Hlo _].
  unfold SpecFloat.binary_normalize.
  destruct (Uint63.to_Z (Uint63.of_Z (Z.of_nat n))) as [|m|m]; [reflexivity| |lia].
  unfold SpecFloat.binary_round.
  destruct (SpecFloat.shl_align m 0 _) as [mz ez].
  unfold SpecFloat.binary_round_aux.
  destruct (SpecFloat.shr_fexp prec emax (Z.pos mz) ez SpecFloat.loc_Exact) as [mrs e'].
  destruct (SpecFloat.shr_fexp prec emax _ e' SpecFloat.loc_Exact) as [mrs' e''].
  replace (Prim2SF 0%float) with (SpecFloat.S754_zero false) by reflexivity.
  destruct (SpecFloat.shr_m mrs') as [|p|p]; try reflexivity.
  destruct (e'' <=? emax - prec); reflexivity.
Qed.

(** A latency equal to zero (either zero of the format) is not greater
    than zero. *)
Lemma zero_not_positive (x : number) :
  PrimFloat.eqb x 0%float = true -> PrimFloat.ltb 0%float x = false.
Proof.
  rewrite FloatAxioms.eqb_spec, FloatAxioms.ltb_spec.
  replace (Prim2SF 0%float) with (SpecFloat.S754_zero false) by reflexivity.
  destruct (Prim2SF x) as [s|s| |s m e]; cbn; try discriminate; try reflexivity.
  all: destruct s; cbn; try discriminate; reflexivity.
Qed.

(** ** Strings *)

Lemma trimStart_blank (s : jsstring) :
  forallb isTrimmed s = true -> trimStart s = [].
Proof.
  induction s as [|c s IH]; [reflexivity|].
  cbn [forallb trimStart]. intros [Hc Hs]%andb_prop.
  rewrite Hc. apply IH, Hs.
Qed.

Lemma trimStart_nil_blank (s : jsstring) :
  trimStart s = [] -> forallb isTrimmed s = true.
Proof.
  induction s as [|c s IH]; [reflexivity|].
  cbn [forallb trimStart]. destruct (isTrimmed c); [exact IH | discriminate].
Qed.

(** What [trimStart] leaves is a suffix of the string, cut after blanks
    only. *)
Lemma trimStart_suffix (s : jsstring) :
  exists blanks, s = blanks ++ trimStart s /\ forallb isTrimmed blanks = true.
Proof.
  induction s as [|c s (blanks & Hs & Hb)].
  - exists []. split; reflexivity.
  - cbn [trimStart]. destruct (isTrimmed c) eqn:Hc.
    + exists (c :: blanks). split; [cbn; f_equal; exact Hs|].
      cbn. rewrite Hc. exact Hb.
    + exists []. split; reflexivity.
Qed.

(** [s.trim()] is empty exactly when [s] is empty or all white space. *)
Lemma trim_blank_iff (s : jsstring) :
  truthy (trim s) = false <-> forallb isTrimmed s = true.
Proof.
  split.
  - intros Htrim.
    assert (trim s = []) as Hnil by (destruct (trim s); [reflexivity | discriminate]).
    unfold trim, trimEnd in Hnil.
    apply (f_equal (@rev code_unit)) in Hnil. rewrite rev_involutive in Hnil.
    cbn [rev] in Hnil.
    apply trimStart_nil_blank in Hnil.
    rewrite forallb_forall in Hnil.
    destruct (trimStart_suffix s) as (blanks & Hs & Hb).
    rewrite Hs, forallb_app, Hb. cbn [andb].
    apply forallb_forall. intros c Hc. apply Hnil, in_rev. rewrite rev_involutive. exact Hc.
  - intros Hblank. unfold trim. rewrite (trimStart_blank s Hblank). reflexivity.
Qed.

(** [s.split(sep)] has one piece more than [s] has separators. *)
Lemma split_length (sep : code_unit) (s : jsstring) :
  length (split sep s) = S (occurrences sep s).
Proof.
  unfold occurrences.
  induction s as [|c s IH]; [reflexivity|].
  cbn [split List.filter]. destruct (c =? sep)%N.
  - cbn [length]. rewrite IH. reflexivity.
  - destruct (split sep s) as [|piece pieces]; [discriminate IH | exact IH].
Qed.

(** ** The paths through [handleSend] *)

Lemma reply_settled (st : AppState) (answer : Message) :
  reply (settled st answer) = Some answer.
Proof.
  unfold reply, settled. cbn [app messages].
  change [mkMessage user (input st) None; answer]
    with ([mkMessage user (input st) None] ++ [answer]).
  rewrite (app_assoc (messages st)). apply last_snoc.
Qed.

(** Every exchange that passes the guard ends in one of five ways. *)
Lemma send_cases (W : World) (st : AppState) :
  sendable st ->
  send W st
  = settled st
      match fetch W (completion_request st) with
      | FetchRejected => connect_error
      | FetchResolved response =>
        if ok response then
          match json_body response with
          | JsonRejected => connect_error
          | JsonValue data =>
            match choices data with
            | [] => connect_error
            | first :: _ => answer_of W data first
            end
          end
        else api_error (status response)
      end.
Proof.
  intros [Hinput Hloading].
  unfold send, handleSend. rewrite Hinput, Hloading. cbn [negb orb].
  unfold bind, try_catch_finally, handleSend_try, bind, await_fetch, start.
  cbn [setMessages setInput setIsLoading modify apply_action app network messages input
       model maxTokens isLoading].
  change (BACKEND_URL ++ js "/v1/completions") with (js "http://localhost:8000/v1/completions").
  fold (completion_request st).
  destruct (fetch W (completion_request st)) as [|response].
  - cbn -[js]. unfold settled. rewrite <- (app_assoc (messages st)). reflexivity.
  - destruct (ok response).
    + unfold await_json. destruct (json_body response) as [|data].
      * cbn -[js]. unfold settled. rewrite <- (app_assoc (messages st)). reflexivity.
      * unfold index, dot_text. destruct (choices data) as [|first rest] eqn:Hchoices.
        -- cbn -[js]. rewrite Hchoices. cbn -[js].
           unfold settled. rewrite <- (app_assoc (messages st)). reflexivity.
        -- cbn -[js Number_of_nat split]. rewrite Hchoices. cbn -[js Number_of_nat split].
           unfold settled. rewrite <- (app_assoc (messages st)). reflexivity.
    + cbn -[js Number_toString]. unfold settled.
      rewrite <- (app_assoc (messages st)). reflexivity.
Qed.

(** The successful exchange, spelled out. *)
Lemma send_success (W : World) (st : AppState) (response : FetchResponse)
    (data : ApiResponse) (first : ApiChoice) (rest : list ApiChoice) :
  sendable st ->
  fetch W (completion_request st) = FetchResolved response ->
  ok response = true ->
  json_body response = JsonValue data ->
  choices data = first :: rest ->
  send W st = settled st (answer_of W data first).
Proof.
  intros Hsend Hfetch Hok Hjson Hchoices.
  rewrite (send_cases W st Hsend), Hfetch, Hok, Hjson, Hchoices. reflexivity.
Qed.

(** ** The claims about the client *)

(** C2, as amended.  In a successful (2xx) exchange whose parsed body has
    a first choice: when the body carries no [usage], the tokens stored in
    the message's metrics are the number of pieces the text splits into at
    its single space characters, one more than it has spaces, hence at
    least 1 and not negative; when [usage.completion_tokens] is there, the
    tokens are that reported number. *)
Theorem client_tokens (W : World) (st : AppState) (response : FetchResponse)
    (data : ApiResponse) (first : ApiChoice) (rest : list ApiChoice) :
  sendable st ->
  fetch W (completion_request st) = FetchResolved response ->
  ok response = true ->
  json_body response = JsonValue data ->
  choices data = first :: rest ->
  exists m : Metrics,
    reply (send W st) = Some (mkMessage assistant (text first) (Some m))
    /\ (usage data = None ->
        tokens m = Number_of_nat (S (occurrences space (text first)))
        /\ PrimFloat.ltb (tokens m) 0%float = false)
    /\ (forall u, usage data = Some u -> tokens m = completion_tokens u).
Proof.
  intros Hsend Hfetch Hok Hjson Hchoices.
  rewrite (send_success W st response data first rest Hsend Hfetch Hok Hjson Hchoices).
  rewrite reply_settled. unfold answer_of.
  eexists. split; [reflexivity|]. cbn [tokens]. split.
  - intros ->. rewrite split_length. split; [reflexivity|].
    apply Number_of_nat_not_negative.
  - intros u ->. reflexivity.
Qed.

(** C3, as amended.  Every completed exchange appends one assistant
    message.  It carries a metrics block if and only if the exchange
    succeeded with a 2xx status and a body that parses to a response with
    at least one choice.  On a non-2xx status its content is
    "Error: API returned <status>", without metrics; on a transport
    failure its content is "Error: Could not connect to backend", without
    metrics. *)
Theorem client_reply_metrics (W : World) (st : AppState) :
  sendable st ->
  exists msg : Message,
    reply (send W st) = Some msg
    /\ role msg = assistant
    /\ (is_Some (metrics msg) <->
        exists response data,
          fetch W (completion_request st) = FetchResolved response
          /\ ok response = true
          /\ json_body response = JsonValue data
          /\ choices data <> [])
    /\ (forall response,
          fetch W (completion_request st) = FetchResolved response ->
          ok response = false ->
          msg = mkMessage assistant
                  (js "Error: API returned " ++ Number_toString (status response))
                  None)
    /\ (fetch W (completion_request st) = FetchRejected ->
        msg = mkMessage assistant (js "Error: Could not connect to backend") None).
Proof.
  intros Hsend. rewrite (send_cases W st Hsend), reply_settled.
  eexists. split; [reflexivity|].
  destruct (fetch W (completion_request st)) as [|response] eqn:Hfetch.
  - repeat split; try discriminate.
    + intros [m Hm]. discriminate Hm.
    + intros (? & ? & [=] & _).
  - destruct (ok response) eqn:Hok.
    + destruct (json_body response) as [|data] eqn:Hjson.
      * repeat split; try discriminate.
        -- intros [m Hm]. discriminate Hm.
        -- intros (? & ? & [= <-] & _ & Hj & _). congruence.
        -- intros ? [= <-]. congruence.
      * destruct (choices data) as [|first rest] eqn:Hchoices.
        -- repeat split; try discriminate.
           ++ intros [m Hm]. discriminate Hm.
           ++ intros (? & ? & [= <-] & _ & Hj & Hne). congruence.
           ++ intros ? [= <-]. congruence.
        -- repeat split; try discriminate.
           ++ intros _. exists response, data. rewrite Hchoices. repeat split; try assumption.
              discriminate.
           ++ intros _. eexists. reflexivity.
           ++ intros ? [= <-]. congruence.
    + repeat split; try discriminate.
      * intros [m Hm]. discriminate Hm.
      * intros (? & ? & [= <-] & Hok' & _). congruence.
      * intros ? [= <-] _. reflexivity.
Qed.

(** C5. In every successful exchange the latency stored is the measured
    one, in seconds, and the tokens per second stored are the tokens
    divided by that latency when it is greater than 0, and 0 when it
    equals 0. *)
Theorem client_tokens_per_second (W : World) (st : AppState)
    (response : FetchResponse) (data : ApiResponse) (first : ApiChoice)
    (rest : list ApiChoice) :
  sendable st ->
  fetch W (completion_request st) = FetchResolved response ->
  ok response = true ->
  json_body response = JsonValue data ->
  choices data = first :: rest ->
  exists m : Metrics,
    reply (send W st) = Some (mkMessage assistant (text first) (Some m))
    /\ latency m
       = PrimFloat.div (PrimFloat.sub (now_after W) (now_before W)) 1000%float
    /\ (PrimFloat.ltb 0%float (latency m) = true ->
        tokensPerSecond m = PrimFloat.div (tokens m) (latency m))
    /\ (PrimFloat.eqb (latency m) 0%float = true -> tokensPerSecond m = 0%float).
Proof.
  intros Hsend Hfetch Hok Hjson Hchoices.
  rewrite (send_success W st response data first rest Hsend Hfetch Hok Hjson Hchoices).
  rewrite reply_settled. unfold answer_of.
  eexists. split; [reflexivity|]. cbn [latency tokens tokensPerSecond].
  split; [reflexivity|]. split.
  - intros ->. reflexivity.
  - intros Hzero. rewrite (zero_not_positive _ Hzero). reflexivity.
Qed.

(** C7. A send on an input that is empty or all white space does
    nothing: the handler returns at once, the state (the session log
    included) is as it was, and nothing went out on the network. *)
Theorem blank_send_is_noop (W : World) (st : AppState) :
  forallb isTrimmed (input st) = true ->
  handleSend W st (start st) = (Normal tt, start st)
  /\ messages (app (send W st)) = messages st
  /\ network (send W st) = [].
Proof.
  intros Hblank. apply trim_blank_iff in Hblank.
  assert (handleSend W st (start st) = (Normal tt, start st)) as Hrun.
  { unfold handleSend. rewrite Hblank. reflexivity. }
  unfold send. rewrite Hrun. repeat split.
Qed.

(** C8. On a 2xx response whose parsed body has an empty [choices], the
    read of [choices[0].text] throws a TypeError in the middle of the
    [try] block, before any assistant message is set; when [choices] is
    not empty the block runs to its end without throwing. *)
Theorem empty_choices_throws (W : World) (st : AppState) (m : Machine)
    (response : FetchResponse) (data : ApiResponse) :
  fetch W (completion_request st) = FetchResolved response ->
  ok response = true ->
  json_body response = JsonValue data ->
  (choices data = [] ->
     dot_text (index (choices data) 0) m = (Throw TypeError, m)
     /\ fst (handleSend_try W st m) = Throw TypeError
     /\ messages (app (snd (handleSend_try W st m))) = messages (app m))
  /\ (choices data <> [] ->
     (exists t, dot_text (index (choices data) 0) m = (Normal t, m))
     /\ fst (handleSend_try W st m) = Normal tt).
Proof.
  intros Hfetch Hok Hjson.
  unfold handleSend_try, bind, await_fetch.
  change (BACKEND_URL ++ js "/v1/completions") with (js "http://localhost:8000/v1/completions").
  fold (completion_request st).
  rewrite Hfetch, Hok. unfold await_json. rewrite Hjson. cbn [ret].
  split.
  - intros ->. repeat split.
  - intros Hne. destruct (choices data) as [|first rest]; [congruence|].
    split; [eexists; reflexivity | reflexivity].
Qed.

(** C9. After [clearChat] the session log is empty, and the four session
    metrics computed from it are all 0. *)
Theorem clear_resets_metrics (st : AppState) :
  messages (app (clear st)) = []
  /\ avgLatency (messages (app (clear st))) = 0%float
  /\ avgThroughput (messages (app (clear st))) = 0%float
  /\ totalTokens (messages (app (clear st))) = 0%float
  /\ requestCount (messages (app (clear st))) = 0%nat.
Proof.
  assert (messages (app (clear st)) = []) as Hlog by reflexivity.
  rewrite Hlog. repeat split.
Qed.

(** Every exchange that passes the guard issues exactly one request,
    appends the user's message and then one assistant message after the
    messages already in the log, clears the input and leaves the busy
    flag down, whether the exchange succeeded or failed. *)
Theorem send_settles (W : World) (st : AppState) :
  sendable st ->
  exists answer : Message,
    role answer = assistant
    /\ messages (app (send W st))
       = messages st ++ [mkMessage user (input st) None; answer]
    /\ input (app (send W st)) = []
    /\ isLoading (app (send W st)) = false
    /\ network (send W st) = [completion_request st].
Proof.
  intros Hsend. rewrite (send_cases W st Hsend).
  eexists. split; [|repeat split].
  destruct (fetch W (completion_request st)) as [|response]; [reflexivity|].
  destruct (ok response); [|reflexivity].
  destruct (json_body response) as [|data]; [reflexivity|].
  destruct (choices data); reflexivity.
Qed.

(** ** Witnesses and counterexamples for the client claims *)

Lemma example_state_sendable : sendable example_state.
Proof. split; reflexivity. Qed.

(** C2, as stated, fails: a 2xx reply "hi  there" (two spaces) without
    [usage] is given 3 tokens, and it has 2 whitespace-delimited words;
    and a reported count of -5 is stored as it is, a negative number. *)
Lemma fallback_tokens_not_word_count :
  (ok two_spaces = true
   /\ reply (send (example_world (FetchResolved two_spaces)) example_state)
      = Some (mkMessage assistant (js "hi  there")
                (Some (mkMetrics 2%float 3%float 1.5%float)))
   /\ whitespace_word_count (js "hi  there") = 2%nat
   /\ Number_of_nat 2 <> 3%float)
  /\ (ok negative_usage = true
      /\ reply (send (example_world (FetchResolved negative_usage)) example_state)
         = Some (mkMessage assistant (js "hi")
                   (Some (mkMetrics 2%float (-5)%float (-2.5)%float)))
      /\ PrimFloat.ltb (-5)%float 0%float = true).
Proof.
  split; repeat split.
  intros H. apply (f_equal (fun x => PrimFloat.eqb x 3%float)) in H.
  vm_compute in H. discriminate H.
Qed.

Lemma client_tokens_witness :
  exists m : Metrics,
    reply (send (example_world (FetchResolved two_spaces)) example_state)
    = Some (mkMessage assistant (js "hi  there") (Some m))
    /\ tokens m = Number_of_nat 3.
Proof.
  destruct (client_tokens (example_world (FetchResolved two_spaces)) example_state
              two_spaces (mkApiResponse [mkApiChoice (js "hi  there")] None)
              (mkApiChoice (js "hi  there")) []
              example_state_sendable eq_refl eq_refl eq_refl eq_refl)
    as (m & Hreply & Hfallback & _).
  exists m. split; [exact Hreply|]. apply Hfallback. reflexivity.
Defined.

(** C3, as stated, fails: a 200 reply whose body has no choice leaves an
    assistant message without metrics. *)
Lemma ok_exchange_without_metrics :
  sendable example_state
  /\ fetch (example_world (FetchResolved no_choices)) (completion_request example_state)
     = FetchResolved no_choices
  /\ ok no_choices = true
  /\ reply (send (example_world (FetchResolved no_choices)) example_state)
     = Some (mkMessage assistant (js "Error: Could not connect to backend") None).
Proof. repeat split. Qed.

Lemma client_reply_metrics_witness :
  exists msg : Message,
    reply (send (example_world (FetchResolved bad_gateway)) example_state) = Some msg
    /\ msg = mkMessage assistant (js "Error: API returned 502") None.
Proof.
  destruct (client_reply_metrics (example_world (FetchResolved bad_gateway))
              example_state example_state_sendable)
    as (msg & Hreply & _ & _ & Hstatus & _).
  exists msg. split; [exact Hreply|].
  apply (Hstatus bad_gateway); reflexivity.
Defined.

Lemma client_tokens_per_second_witness :
  exists m : Metrics,
    reply (send (example_world (FetchResolved two_spaces)) example_state)
    = Some (mkMessage assistant (js "hi  there") (Some m))
    /\ tokensPerSecond m = PrimFloat.div (tokens m) (latency m).
Proof.
  destruct (client_tokens_per_second (example_world (FetchResolved two_spaces))
              example_state two_spaces
              (mkApiResponse [mkApiChoice (js "hi  there")] None)
              (mkApiChoice (js "hi  there")) []
              example_state_sendable eq_refl eq_refl eq_refl eq_refl)
    as (m & Hreply & Hlatency & Hpositive & _).
  exists m. split; [exact Hreply|]. apply Hpositive.
  rewrite Hlatency. reflexivity.
Defined.

Lemma blank_send_is_noop_witness :
  network (send (example_world FetchRejected)
                (mkApp [] (js "   ") (js "llama3.2") 150%float false)) = [].
Proof.
  apply (blank_send_is_noop (example_world FetchRejected)
           (mkApp [] (js "   ") (js "llama3.2") 150%float false)).
  reflexivity.
Defined.

Lemma empty_choices_throws_witness :
  fst (handleSend_try (example_world (FetchResolved no_choices)) example_state
                      (start example_state))
  = Throw TypeError.
Proof.
  apply (empty_choices_throws (example_world (FetchResolved no_choices)) example_state
           (start example_state) no_choices (mkApiResponse [] None)
           eq_refl eq_refl eq_refl).
  reflexivity.
Defined.

Lemma send_settles_witness :
  exists answer : Message,
    messages (app (send (example_world FetchRejected) example_state))
    = [mkMessage user (js "hello") None; answer].
Proof.
  destruct (send_settles (example_world FetchRejected) example_state
              example_state_sendable)
    as (answer & _ & Hlog & _).
  exists answer. exact Hlog.
Defined.

(* ====================================================================== *)
(** * Part VI. Further properties of the proxy *)
(* ====================================================================== *)

(** ** Counting, once more *)

Lemma pieces_measure {A} (delim : A -> bool) (l : list A) :
  (length l + 1
   = list_sum (map (@length A) (pieces delim l)) + length (pieces delim l))%nat.
Proof.
  induction l as [|x l IH]; [reflexivity|].
  cbn [pieces]. destruct (delim x).
  - unfold list_sum in *. cbn [map fold_right length] in *. lia.
  - pose proof (pieces_not_nil delim l) as Hne.
    destruct (pieces delim l) as [|p ps]; [congruence|].
    unfold list_sum in *. cbn [map fold_right length] in *. lia.
Qed.

Lemma nonempty_pieces_bound {A} (pcs : list (list A)) :
  (2 * length (List.filter nonempty pcs)
   <= list_sum (map (@length A) pcs) + length pcs)%nat.
Proof.
  induction pcs as [|p ps IH]; [reflexivity|].
  unfold list_sum in *. cbn [List.filter map fold_right length].
  destruct p as [|x p]; cbn [nonempty length]; lia.
Qed.

(** A text of [n] characters has at most [(n + 1) / 2] delimited fields. *)
Lemma delimited_fields_bound {A} (delim : A -> bool) (l : list A) :
  (2 * length (delimited_fields delim l) <= length l + 1)%nat.
Proof.
  unfold delimited_fields. rewrite (pieces_measure delim l). apply nonempty_pieces_bound.
Qed.

(** A text has no delimited field exactly when it consists of delimiters. *)
Lemma delimited_fields_none {A} (delim : A -> bool) (l : list A) :
  length (delimited_fields delim l) = 0%nat <-> forallb delim l = true.
Proof.
  unfold delimited_fields.
  induction l as [|x l IH]; [split; reflexivity|].
  cbn [pieces forallb]. destruct (delim x).
  - cbn [List.filter nonempty andb]. exact IH.
  - pose proof (pieces_not_nil delim l) as Hne.
    destruct (pieces delim l) as [|p ps]; [congruence|].
    cbn [List.filter nonempty length andb]. split; discriminate.
Qed.

Lemma utf8_runes_from_length (s : list byte) :
  forall pending, (length (utf8_runes_from pending s) <= length s)%nat.
Proof.
  induction s as [|b s IH]; intros pending; [reflexivity|].
  destruct pending as [|k]; cbn [utf8_runes_from].
  - destruct (if RuneSelf <=? b then utf8_DecodeRune (b :: s) else (b, 1%nat))
      as [r size].
    cbn [length]. specialize (IH (size - 1)%nat). lia.
  - cbn [length]. specialize (IH k). lia.
Qed.

(** ** Every reply of the endpoint *)

Lemma Method_is (r : Request) (m : string) :
  String.eqb (Method r) m = true -> Method r = m.
Proof. apply String.eqb_eq. Qed.

Lemma endpoint_takes_a_path (E : Env) (r : Request) : endpoint_path E r (endpoint E r).
Proof.
  unfold endpoint. rewrite enableCORS_unfold.
  destruct (String.eqb (Method r) "OPTIONS") eqn:Hopt.
  { apply path_preflight, Method_is, Hopt. }
  apply String.eqb_neq in Hopt.
  unfold handleCompletion.
  destruct (String.eqb (Method r) "POST") eqn:Hpost; cbn [negb].
  2:{ apply String.eqb_neq in Hpost. apply path_method; assumption. }
  apply Method_is in Hpost.
  destruct (json_Decode E (req_Body r)) as [req|] eqn:Hdecode.
  2:{ apply path_decode; assumption. }
  cbn [json_Marshal]. rewrite marshal_translated.
  destruct (http_Post E (upstream_call req)) as [err|st [|body]] eqn:Hcall.
  - eapply path_transport; eassumption.
  - eapply (path_upstream_body E r req st); try eassumption. left. split; [exact Hcall | reflexivity].
  - destruct (json_Unmarshal E body) as [ollamaResp|] eqn:Hparse.
    + rewrite bytes_Fields_length. eapply path_success; eassumption.
    + eapply (path_upstream_body E r req st); try eassumption.
      right. exists body. repeat split; assumption.
Qed.

(** The shape of every reply: a preflight answer (200, no body, no
    content type); or a completion (200, one JSON document holding
    exactly one choice and a non-negative token count, content type
    application/json); or an error (400, 405, 500 or 502, one non-empty
    line of plain text, content type text/plain, nosniff).  Never a 2xx
    with anything but those two bodies. *)
Theorem proxy_reply_shape (E : Env) (r : Request) :
  (Method r = "OPTIONS"
   /\ resp_status (serve E r) = 200
   /\ resp_body (serve E r) = []
   /\ resp_header (serve E r) !! "Content-Type" = None)
  \/ (exists response : CompletionResponse.t,
        resp_status (serve E r) = 200
        /\ resp_body (serve E r) = [Json (marshal_CompletionResponse response)]
        /\ length (CompletionResponse.Choices response) = 1%nat
        /\ 0 <= Usage.CompletionTokens (CompletionResponse.Usage response)
        /\ resp_header (serve E r) !! "Content-Type" = Some ["application/json"])
  \/ (exists msg : string,
        In (resp_status (serve E r)) [400; 405; 500; 502]
        /\ resp_body (serve E r) = [Text (String.append msg newline)]
        /\ msg <> ""
        /\ resp_header (serve E r) !! "Content-Type"
           = Some ["text/plain; charset=utf-8"]
        /\ resp_header (serve E r) !! "X-Content-Type-Options" = Some ["nosniff"]).
Proof.
  pose proof (endpoint_takes_a_path E r) as Hpath. unfold serve.
  destruct Hpath as [Hopt | | | req err | req st msg ? ? Hbody | req st body ollamaResp].
  - left. repeat split. exact Hopt.
  - right. right. eexists. repeat split; [cbn; tauto | discriminate].
  - right. right. eexists. repeat split; [cbn; tauto | discriminate].
  - right. right. eexists. repeat split; [cbn; tauto | discriminate].
  - right. right. exists msg. repeat split; [cbn; tauto|].
    destruct Hbody as [[_ ->] | (? & _ & _ & ->)]; discriminate.
  - right. left. eexists. repeat split. cbn. lia.
Qed.


(** A log line is printed exactly when the reply is a completion: none
    for a preflight or an error reply, and for a completion one line with
    the request's model, the elapsed time and the token count that is
    also sent as [usage.completion_tokens]. *)
Theorem proxy_logs_exactly_on_success (E : Env) (r : Request) :
  (logged (endpoint E r) = [] /\ forall v, resp_body (serve E r) <> [Json v])
  \/ (exists req response,
        json_Decode E (req_Body r) = Some req
        /\ resp_body (serve E r) = [Json (marshal_CompletionResponse response)]
        /\ logged (endpoint E r)
           = [mkLog (CompletionRequest.Model req) (time_Since E)
                    (Usage.CompletionTokens (CompletionResponse.Usage response))]).
Proof.
  pose proof (endpoint_takes_a_path E r) as Hpath. unfold serve.
  destruct Hpath as [Hopt | | | req err | req st msg ? ? Hbody | req st body ollamaResp].
  1-5: left; split; [reflexivity | intros v; discriminate].
  right. exists req. eexists. repeat split. assumption.
Qed.

(** The [max_tokens] of the request has no effect at all: two requests
    that decode to the same model and prompt get the same reply, make the
    same upstream call and print the same log line, whatever their
    [max_tokens]. *)
Theorem max_tokens_never_matters (E1 E2 : Env) (r : Request)
    (req1 req2 : CompletionRequest.t) :
  (forall call, http_Post E1 call = http_Post E2 call) ->
  (forall body, json_Unmarshal E1 body = json_Unmarshal E2 body) ->
  time_Since E1 = time_Since E2 ->
  json_Decode E1 (req_Body r) = Some req1 ->
  json_Decode E2 (req_Body r) = Some req2 ->
  CompletionRequest.Model req1 = CompletionRequest.Model req2 ->
  CompletionRequest.Prompt req1 = CompletionRequest.Prompt req2 ->
  endpoint E1 r = endpoint E2 r.
Proof.
  intros Hpost Hparse Htime Hdecode1 Hdecode2 Hmodel Hprompt.
  unfold endpoint. rewrite !enableCORS_unfold.
  destruct (String.eqb (Method r) "OPTIONS"); [reflexivity|].
  unfold handleCompletion.
  destruct (negb (String.eqb (Method r) "POST")); [reflexivity|].
  rewrite Hdecode1, Hdecode2. cbn [json_Marshal].
  rewrite Hmodel, Hprompt, Hpost.
  destruct (http_Post E2 _) as [err|st [|body]]; try reflexivity.
  rewrite Hparse, Htime.
  destruct (json_Unmarshal E2 body); reflexivity.
Qed.

(** Of what the upstream answers, only the response text is used: two
    upstream answers with the same text give the same run of the handler,
    whatever their status, model, done flag, duration and eval count, and
    whatever else their bodies hold. *)
Theorem only_response_text_matters (E1 E2 : Env) (r : Request)
    (req : CompletionRequest.t) (st1 st2 : Z) (body1 body2 : string)
    (resp1 resp2 : OllamaResponse.t) :
  Method r = "POST" ->
  json_Decode E1 (req_Body r) = Some req ->
  json_Decode E2 (req_Body r) = Some req ->
  time_Since E1 = time_Since E2 ->
  http_Post E1 (upstream_call req) = PostResponse st1 (ReadOK body1) ->
  json_Unmarshal E1 body1 = Some resp1 ->
  http_Post E2 (upstream_call req) = PostResponse st2 (ReadOK body2) ->
  json_Unmarshal E2 body2 = Some resp2 ->
  OllamaResponse.Response resp1 = OllamaResponse.Response resp2 ->
  endpoint E1 r = endpoint E2 r.
Proof.
  intros Hmethod Hdecode1 Hdecode2 Htime Hpost1 Hparse1 Hpost2 Hparse2 Htext.
  rewrite (endpoint_success E1 r req st1 body1 resp1 Hmethod Hdecode1 Hpost1 Hparse1).
  rewrite (endpoint_success E2 r req st2 body2 resp2 Hmethod Hdecode2 Hpost2 Hparse2).
  rewrite Htext, Htime. reflexivity.
Qed.

(** The token count of a completion is not negative, it is at most half
    the number of bytes of the text, rounded up, and it is 0 exactly when
    the text is empty or all white space. *)
Theorem proxy_token_count_range (E : Env) (r : Request) (req : CompletionRequest.t)
    (upstream_status : Z) (body : string) (ollamaResp : OllamaResponse.t) :
  Method r = "POST" ->
  json_Decode E (req_Body r) = Some req ->
  http_Post E (upstream_call req) = PostResponse upstream_status (ReadOK body) ->
  json_Unmarshal E body = Some ollamaResp ->
  exists n : Z,
    resp_body (serve E r)
    = [Json (marshal_CompletionResponse
               (CompletionResponse.mk
                  [Choice.mk (OllamaResponse.Response ollamaResp)] (Usage.mk n)))]
    /\ 0 <= n
    /\ 2 * n
       <= Z.of_nat (length (bytes_of_string (OllamaResponse.Response ollamaResp))) + 1
    /\ (n = 0 <->
        forallb unicode_IsSpace
                (utf8_runes (bytes_of_string (OllamaResponse.Response ollamaResp)))
        = true).
Proof.
  intros Hmethod Hdecode Hpost Hparse.
  unfold serve.
  rewrite (endpoint_success E r req upstream_status body ollamaResp
             Hmethod Hdecode Hpost Hparse).
  rewrite bytes_Fields_length. eexists. split; [reflexivity|].
  unfold whitespace_field_count.
  set (text := bytes_of_string (OllamaResponse.Response ollamaResp)).
  pose proof (delimited_fields_bound unicode_IsSpace (utf8_runes text)) as Hbound.
  pose proof (utf8_runes_from_length text 0) as Hrunes. fold (utf8_runes text) in Hrunes.
  pose proof (delimited_fields_none unicode_IsSpace (utf8_runes text)) as Hnone.
  split; [lia|]. split; [lia|].
  rewrite <- Hnone. lia.
Qed.

(* ====================================================================== *)
(** * Part VII. Further properties of the client *)
(* ====================================================================== *)

(** ** The guard *)

Lemma sendDisabled_sendable (st : AppState) :
  sendDisabled st = false <-> sendable st.
Proof.
  unfold sendDisabled, sendable.
  destruct (truthy (trim (input st))), (isLoading st); cbn; intuition discriminate.
Qed.

Lemma handleSend_blocked (W : World) (st : AppState) (m : Machine) :
  sendDisabled st = true -> handleSend W st m = (Normal tt, m).
Proof.
  unfold sendDisabled, handleSend. intros ->. reflexivity.
Qed.

Lemma strict_equal_eq (a b : jsstring) : strict_equal a b = true <-> a = b.
Proof.
  revert b. induction a as [|x a IH]; intros [|y b]; cbn [strict_equal];
    try (split; [discriminate | discriminate]); [split; reflexivity|].
  rewrite andb_true_iff, N.eqb_eq, IH. split.
  - intros [-> ->]. reflexivity.
  - intros [= -> ->]. split; reflexivity.
Qed.

(** ** The session log and its metrics *)

(** [sessionMetrics] is the filter-then-map of the source, whatever the
    non-null assertion [m.metrics!] would stand for on a message without
    metrics. *)
Lemma sessionMetrics_filter_map (d : Metrics) (msgs : list Message) :
  sessionMetrics msgs
  = map (fun m => match metrics m with Some x => x | None => d end)
        (List.filter (fun m => match metrics m with Some _ => true | None => false end)
                     msgs).
Proof.
  unfold sessionMetrics.
  induction msgs as [|m msgs IH]; [reflexivity|].
  cbn [omap list_omap List.filter].
  destruct (metrics m) eqn:Hm; cbn [map]; rewrite <- IH, ?Hm; reflexivity.
Qed.

Lemma sessionMetrics_exchange (log : list Message) (prompt : jsstring) (answer : Message) :
  sessionMetrics (log ++ [mkMessage user prompt None; answer])
  = sessionMetrics log ++ match metrics answer with Some m => [m] | None => [] end.
Proof.
  unfold sessionMetrics. rewrite omap_app. reflexivity.
Qed.

Lemma reduce_sum_snoc (field : Metrics -> number) (sm : list Metrics) (m : Metrics) :
  reduce_sum field (sm ++ [m]) = PrimFloat.add (reduce_sum field sm) (field m).
Proof. unfold reduce_sum. rewrite fold_left_app. reflexivity. Qed.

(** What an exchange leaves in the log, with the message it ended with. *)
Lemma send_log (W : World) (st : AppState) :
  sendable st ->
  exists answer : Message,
    reply (send W st) = Some answer
    /\ messages (app (send W st))
       = messages st ++ [mkMessage user (input st) None; answer].
Proof.
  intros Hsend. rewrite (send_cases W st Hsend).
  eexists. split; [apply reply_settled | reflexivity].
Qed.

(** A send goes out exactly when the button is enabled: when the input
    is blank or a request is in flight the handler returns at once,
    leaving the state as it was and the network untouched; otherwise
    exactly one request goes out. *)
Theorem send_guard_exact (W : World) (st : AppState) :
  (sendDisabled st = true <->
   forallb isTrimmed (input st) = true \/ isLoading st = true)
  /\ (sendDisabled st = true ->
      forall m, handleSend W st m = (Normal tt, m))
  /\ (sendDisabled st = false ->
      network (send W st) = [completion_request st])
  /\ (network (send W st) = [] <-> sendDisabled st = true).
Proof.
  split; [|split; [|split]].
  - unfold sendDisabled. rewrite orb_true_iff, negb_true_iff, trim_blank_iff. reflexivity.
  - intros Hoff m. apply handleSend_blocked, Hoff.
  - intros Hon. apply sendDisabled_sendable in Hon.
    rewrite (send_cases W st Hon). reflexivity.
  - destruct (sendDisabled st) eqn:Hguard.
    + unfold send. rewrite (handleSend_blocked W st _ Hguard). split; reflexivity.
    + apply sendDisabled_sendable in Hguard.
      rewrite (send_cases W st Hguard). split; discriminate.
Qed.

(** A failed exchange (one whose assistant message has no metrics)
    leaves the session metrics as they were: the same metrics list, the
    same averages, total and request count. *)
Theorem failed_exchange_keeps_session_metrics (W : World) (st : AppState)
    (msg : Message) :
  sendable st ->
  reply (send W st) = Some msg ->
  metrics msg = None ->
  sessionMetrics (messages (app (send W st))) = sessionMetrics (messages st)
  /\ avgLatency (messages (app (send W st))) = avgLatency (messages st)
  /\ avgThroughput (messages (app (send W st))) = avgThroughput (messages st)
  /\ totalTokens (messages (app (send W st))) = totalTokens (messages st)
  /\ requestCount (messages (app (send W st))) = requestCount (messages st).
Proof.
  intros Hsend Hreply Hnone.
  destruct (send_log W st Hsend) as (answer & Hanswer & Hlog).
  assert (answer = msg) as -> by congruence.
  assert (sessionMetrics (messages (app (send W st))) = sessionMetrics (messages st))
    as Hsame.
  { rewrite Hlog, sessionMetrics_exchange, Hnone. apply app_nil_r. }
  unfold avgLatency, avgThroughput, totalTokens, requestCount.
  rewrite Hsame. repeat split.
Qed.

(** A successful exchange (one whose assistant message has metrics [m])
    adds exactly [m] at the end of the session metrics: the request
    count grows by one and the total grows by the tokens of [m]. *)
Theorem successful_exchange_adds_to_totals (W : World) (st : AppState)
    (msg : Message) (m : Metrics) :
  sendable st ->
  reply (send W st) = Some msg ->
  metrics msg = Some m ->
  sessionMetrics (messages (app (send W st))) = sessionMetrics (messages st) ++ [m]
  /\ requestCount (messages (app (send W st))) = S (requestCount (messages st))
  /\ totalTokens (messages (app (send W st)))
     = PrimFloat.add (totalTokens (messages st)) (tokens m).
Proof.
  intros Hsend Hreply Hsome.
  destruct (send_log W st Hsend) as (answer & Hanswer & Hlog).
  assert (answer = msg) as -> by congruence.
  assert (sessionMetrics (messages (app (send W st)))
          = sessionMetrics (messages st) ++ [m]) as Hmore.
  { rewrite Hlog, sessionMetrics_exchange, Hsome. reflexivity. }
  unfold totalTokens, requestCount. rewrite Hmore.
  split; [reflexivity|]. split.
  - rewrite length_app. cbn [length]. lia.
  - apply reduce_sum_snoc.
Qed.

(** An exchange clears the input, so a second send from the state it
    left, with nothing typed in between, does nothing. *)
Theorem resend_without_typing_is_noop (W W' : World) (st : AppState) (m : Machine) :
  sendable st ->
  handleSend W' (app (send W st)) m = (Normal tt, m).
Proof.
  intros Hsend. apply handleSend_blocked.
  rewrite (send_cases W st Hsend). reflexivity.
Qed.

Lemma handleSend_completes (W : World) (st : AppState) (m : Machine) :
  fst (handleSend W st m) = Normal tt.
Proof.
  unfold handleSend.
  destruct (negb (truthy (trim (input st))) || isLoading st); [reflexivity|].
  unfold bind, try_catch_finally, handleSend_try, bind, await_fetch.
  cbn [setMessages setInput setIsLoading modify apply_action app network].
  destruct (fetch W _) as [|response]; [reflexivity|].
  destruct (ok response); [|reflexivity].
  unfold await_json. destruct (json_body response) as [|data]; [reflexivity|].
  cbn [ret]. unfold index, dot_text.
  destruct (choices data) as [|first rest]; reflexivity.
Qed.

(** [handleSend] never throws: whatever the backend does, the call
    completes normally (the promise it returns never rejects), from any
    state of the machine; and so does [handleKeyDown], which calls it
    without awaiting it. *)
Theorem handleSend_never_throws (W : World) (st : AppState) (m : Machine) :
  fst (handleSend W st m) = Normal tt
  /\ forall e, exists prevented : bool,
       fst (handleKeyDown W st e m) = Normal prevented.
Proof.
  pose proof (handleSend_completes W st m) as Hdone.
  split; [exact Hdone|].
  intros e. unfold handleKeyDown.
  destruct (strict_equal (key e) (js "Enter") && negb (shiftKey e)).
  - unfold bind. destruct (handleSend W st m) as [[[]|exc] m'].
    + exists true. reflexivity.
    + discriminate Hdone.
  - exists false. reflexivity.
Qed.

(** A key press sends only when it is Enter without Shift, and then it
    does what a click on Send does, guard included; any other key, and
    Shift+Enter, leaves the state and the network alone and does not
    prevent the key's default action. *)
Theorem keydown_sends_only_on_plain_enter (W : World) (st : AppState)
    (e : KeyboardEvent) :
  (key e = js "Enter" -> shiftKey e = false ->
     handleKeyDown W st e (start st) = (Normal true, send W st))
  /\ (key e <> js "Enter" \/ shiftKey e = true ->
     handleKeyDown W st e (start st) = (Normal false, start st))
  /\ (network (snd (handleKeyDown W st e (start st))) <> [] ->
     key e = js "Enter" /\ shiftKey e = false /\ sendable st).
Proof.
  assert (key e = js "Enter" -> shiftKey e = false ->
          handleKeyDown W st e (start st) = (Normal true, send W st)) as Henter.
  { intros Hkey Hshift. unfold handleKeyDown.
    apply strict_equal_eq in Hkey. rewrite Hkey, Hshift. cbn [negb andb].
    unfold bind, send.
    pose proof (handleSend_completes W st (start st)) as Hnormal.
    destruct (handleSend W st (start st)) as [[[]|] m']; [reflexivity|discriminate]. }
  assert (key e <> js "Enter" \/ shiftKey e = true ->
          handleKeyDown W st e (start st) = (Normal false, start st)) as Hother.
  { intros Hno. unfold handleKeyDown.
    destruct (strict_equal (key e) (js "Enter")) eqn:Hkey; [|reflexivity].
    apply strict_equal_eq in Hkey.
    destruct Hno as [Hno | ->]; [contradiction | reflexivity]. }
  split; [exact Henter|]. split; [exact Hother|].
  intros Hnet.
  destruct (strict_equal (key e) (js "Enter")) eqn:Hkey.
  - apply strict_equal_eq in Hkey. destruct (shiftKey e) eqn:Hshift.
    + rewrite Hother in Hnet by (right; reflexivity). contradiction.
    + rewrite (Henter Hkey eq_refl) in Hnet. cbn [snd] in Hnet.
      split; [exact Hkey|]. split; [reflexivity|].
      apply sendDisabled_sendable.
      destruct (sendDisabled st) eqn:Hguard; [|reflexivity].
      exfalso. apply Hnet. unfold send.
      rewrite (handleSend_blocked W st _ Hguard). reflexivity.
  - rewrite Hother in Hnet.
    + contradiction.
    + left. intros Heq. apply strict_equal_eq in Heq. congruence.
Qed.

(** ** The fallback count and words *)




(** ** The client behind the proxy *)

Lemma proxy_error_path_502 (E : Env) (r : Request) (req : CompletionRequest.t)
    (err : string) :
  Method r = "POST" ->
  json_Decode E (req_Body r) = Some req ->
  http_Post E (upstream_call req) = PostError err ->
  resp_status (serve E r) = 502.
Proof.
  intros Hmethod Hdecode Hpost.
  unfold serve, endpoint. rewrite enableCORS_unfold, Hmethod.
  cbn [String.eqb Ascii.eqb Bool.eqb].
  unfold handleCompletion. rewrite Hmethod, Hdecode.
  cbn [String.eqb Ascii.eqb Bool.eqb negb json_Marshal].
  rewrite marshal_translated, Hpost. reflexivity.
Qed.



Lemma serve_status (E : Env) (r : Request) :
  In (resp_status (serve E r)) [200; 400; 405; 500; 502].
Proof.
  pose proof (endpoint_takes_a_path E r) as Hpath. unfold serve.
  destruct Hpath; cbn; tauto.
Qed.

(** When the client receives a response with the status the proxy wrote
    and that status is not 200, it shows "Error: API returned <status>"
    with one of the proxy's four error statuses; in particular, when the
    proxy could not reach the upstream the client shows
    "Error: API returned 502", which is not the message of a failed
    connection to the proxy itself. *)
Theorem proxy_failure_shows_api_error (E : Env) (r : Request) (W : World)
    (st : AppState) (response : FetchResponse) :
  sendable st ->
  fetch W (completion_request st) = FetchResolved response ->
  Z.of_N (status response) = resp_status (serve E r) ->
  (resp_status (serve E r) <> 200 ->
     In (status response) [400; 405; 500; 502]%N
     /\ reply (send W st)
        = Some (mkMessage assistant
                  (js "Error: API returned " ++ Number_toString (status response))
                  None))
  /\ (forall req err,
        Method r = "POST" ->
        json_Decode E (req_Body r) = Some req ->
        http_Post E (upstream_call req) = PostError err ->
        reply (send W st)
        = Some (mkMessage assistant (js "Error: API returned 502") None)
        /\ reply (send W st) <> Some connect_error).
Proof.
  intros Hsend Hfetch Hstatus.
  assert (resp_status (serve E r) <> 200 ->
          In (status response) [400; 405; 500; 502]%N
          /\ reply (send W st) = Some (api_error (status response))) as Herror.
  { intros Hnot200.
    pose proof (serve_status E r) as Hin. rewrite <- Hstatus in Hin, Hnot200.
    assert (In (status response) [400; 405; 500; 502]%N) as Hcode.
    { cbn in Hin |- *. lia. }
    split; [exact Hcode|].
    rewrite (send_cases W st Hsend), reply_settled, Hfetch.
    assert (ok response = false) as ->; [|reflexivity].
    unfold ok. cbn in Hcode.
    destruct Hcode as [<-|[<-|[<-|[<-|[]]]]]; reflexivity. }
  split; [exact Herror|].
  intros req err Hmethod Hdecode Hpost.
  pose proof (proxy_error_path_502 E r req err Hmethod Hdecode Hpost) as Hbad.
  rewrite Hbad in Hstatus.
  assert (status response = 502%N) as Hcode by lia.
  destruct Herror as [_ Hreply]; [rewrite Hbad; discriminate|].
  rewrite Hreply, Hcode. split; [reflexivity | discriminate].
Qed.

(** ** Witnesses for the further properties *)


Lemma max_tokens_never_matters_witness :
  endpoint (example_env (Some (CompletionRequest.mk "llama3.2" "hello" 150))
                        (PostError "refused") None) scenario_request
  = endpoint (example_env (Some (CompletionRequest.mk "llama3.2" "hello" 500))
                          (PostError "refused") None) scenario_request.
Proof.
  apply (max_tokens_never_matters _ _ scenario_request
           (CompletionRequest.mk "llama3.2" "hello" 150)
           (CompletionRequest.mk "llama3.2" "hello" 500));
    reflexivity.
Defined.

Lemma only_response_text_matters_witness :
  endpoint (example_env (Some (CompletionRequest.mk "llama3.2" "hello" 150))
                        (PostResponse 200 (ReadOK "one"))
                        (Some (OllamaResponse.mk "llama3.2" "hi there" true 0 0)))
           scenario_request
  = endpoint (example_env (Some (CompletionRequest.mk "llama3.2" "hello" 150))
                          (PostResponse 404 (ReadOK "another"))
                          (Some (OllamaResponse.mk "other" "hi there" false 5 7)))
             scenario_request.
Proof.
  apply (only_response_text_matters _ _ scenario_request
           (CompletionRequest.mk "llama3.2" "hello" 150) 200 404 "one" "another"
           (OllamaResponse.mk "llama3.2" "hi there" true 0 0)
           (OllamaResponse.mk "other" "hi there" false 5 7));
    reflexivity.
Defined.

Lemma proxy_token_count_range_witness :
  exists n : Z,
    resp_body (serve (scenario_env 200) scenario_request)
    = [Json (marshal_CompletionResponse
               (CompletionResponse.mk [Choice.mk "hi there"] (Usage.mk n)))]
    /\ 0 <= n /\ 2 * n <= 9.
Proof.
  destruct (proxy_token_count_range (scenario_env 200) scenario_request
              (CompletionRequest.mk "llama3.2" "hello" 150) 200 "upstream body"
              (OllamaResponse.mk "llama3.2" "hi there" true 0 0)
              eq_refl eq_refl eq_refl eq_refl)
    as (n & Hbody & Hlow & Hhigh & _).
  exists n. repeat split; assumption.
Defined.

Lemma send_guard_exact_witness :
  network (send (example_world FetchRejected) example_state)
  = [completion_request example_state].
Proof.
  apply (send_guard_exact (example_world FetchRejected) example_state).
  reflexivity.
Defined.

Lemma failed_exchange_keeps_session_metrics_witness :
  requestCount
    (messages (app (send (example_world (FetchResolved bad_gateway)) example_state)))
  = requestCount (messages example_state).
Proof.
  apply (failed_exchange_keeps_session_metrics
           (example_world (FetchResolved bad_gateway)) example_state
           (api_error 502) example_state_sendable eq_refl eq_refl).
Defined.

Lemma successful_exchange_adds_to_totals_witness :
  requestCount
    (messages (app (send (example_world (FetchResolved two_spaces)) example_state)))
  = 1%nat.
Proof.
  apply (successful_exchange_adds_to_totals
           (example_world (FetchResolved two_spaces)) example_state
           (mkMessage assistant (js "hi  there")
              (Some (mkMetrics 2%float 3%float 1.5%float)))
           (mkMetrics 2%float 3%float 1.5%float)
           example_state_sendable eq_refl eq_refl).
Defined.

Lemma resend_without_typing_is_noop_witness :
  handleSend (example_world FetchRejected)
             (app (send (example_world (FetchResolved two_spaces)) example_state))
             (send (example_world (FetchResolved two_spaces)) example_state)
  = (Normal tt, send (example_world (FetchResolved two_spaces)) example_state).
Proof.
  apply (resend_without_typing_is_noop (example_world (FetchResolved two_spaces))
           (example_world FetchRejected) example_state _ example_state_sendable).
Defined.

Lemma keydown_sends_only_on_plain_enter_witness :
  handleKeyDown (example_world FetchRejected) example_state
                (mkKey (js "Enter") false) (start example_state)
  = (Normal true, send (example_world FetchRejected) example_state)
  /\ handleKeyDown (example_world FetchRejected) example_state
                   (mkKey (js "Enter") true) (start example_state)
     = (Normal false, start example_state).
Proof.
  split.
  - apply (keydown_sends_only_on_plain_enter (example_world FetchRejected)
             example_state (mkKey (js "Enter") false)); reflexivity.
  - apply (keydown_sends_only_on_plain_enter (example_world FetchRejected)
             example_state (mkKey (js "Enter") true)).
    right. reflexivity.
Defined.

Lemma proxy_failure_shows_api_error_witness :
  reply (send (example_world (FetchResolved bad_gateway)) example_state)
  = Some (mkMessage assistant (js "Error: API returned 502") None).
Proof.
  apply (proxy_failure_shows_api_error
           (example_env (Some (CompletionRequest.mk "llama3.2" "hello" 150))
                        (PostError "refused") None)
           scenario_request (example_world (FetchResolved bad_gateway)) example_state
           bad_gateway example_state_sendable eq_refl eq_refl).
  discriminate.
Defined.
